(** * Upload components: a model of FileUploader and MultiFileUpload

    The two React components are embedded as event-driven state machines.
    A component's [useState] cells form a record; every handler of the
    source is a function on that record; the browser's event loop is a
    labelled step function whose labels are the user's actions and the
    settlement of the HTTP requests that are in flight.

    Numbers.  [File.size], [ProgressEvent.loaded] and [ProgressEvent.total]
    are integers, so they are modelled in [Z].  The source computes on IEEE
    doubles: the model takes the exact value of every quotient, and every
    statement that depends on such a value carries the bounds within which
    the doubles give it.

    - An integer below 2^53 divided by a power of 1024 is exact, and
      [toFixed] rounds the exact value.
    - [Math.floor(Math.log(bytes) / Math.log(1024))] is the exact floor
      [Z.log2 bytes / 10] for byte counts up to 1024^4.  Above, the rounded
      quotient of the two logarithms can reach the next integer just below
      a power of 1024 (it is exactly 5 from 2^50 - 3 on), so there the
      index is a parameter [floor_log] of the formatter, of which only
      what [Math.log] guarantees is assumed.
    - [Math.round((loaded * 100) / total)] is the nearest integer to the
      exact quotient for 0 <= loaded <= total < 2^46, and [loaded * 100]
      itself is exact below 2^53. *)

From Stdlib Require Import ZArith List String Ascii Bool Lia.
From Stdlib Require Import Numbers.DecimalString.
Import ListNotations.

Open Scope string_scope.
Open Scope Z_scope.

(** ** The browser's [File] object, as far as the components read it *)

Record File := mkFile {
  name : string;
  size : Z;
  type : string
}.

(** Three files to try the components on; the first two share their name. *)
Definition report : File := mkFile "report.pdf" 1536 "application/pdf".
Definition report' : File := mkFile "report.pdf" 1048576 "application/pdf".
Definition photo : File := mkFile "photo.png" 2048 "image/png".

(** ** Rendering of numbers *)

Module Js.

(** [String(n)] for an integer [n]. *)
Definition toString (n : Z) : string :=
  NilZero.string_of_int (Z.to_int n).

(** [Math.round (a / b)]: the nearest integer, halves going up. *)
Definition round_div (a b : Z) : Z := (2 * a + b) / (2 * b).

(** [(a / b).toFixed(1)], kept as its number of tenths: the integer [n]
    with [n / 10] nearest to [a / b], the larger one on a tie. *)
Definition toFixed1 (a b : Z) : Z := round_div (10 * a) b.

(** The text of [x.toFixed(1)] for a non-negative number of tenths. *)
Definition toFixed1_text (tenths : Z) : string :=
  toString (tenths / 10) ++ "." ++ toString (tenths mod 10).

(** [`${parseFloat(s)}`] for [s] the text of [tenths]: the shortest
    decimal, so a fractional part of zero is not written. *)
Definition parseFloat_text (tenths : Z) : string :=
  if tenths mod 10 =? 0 then toString (tenths / 10)
  else toFixed1_text tenths.

(** [`${o}`] for the result of an array lookup, which is [undefined]
    when the index is outside the array. *)
Definition template (o : option string) : string :=
  match o with
  | Some s => s
  | None => "undefined"
  end.

End Js.

(** ** formatFileSize *)

Definition k : Z := 1024.

Definition sizes : list string := ["B"; "KB"; "MB"; "GB"].

(** [Math.floor(Math.log(bytes) / Math.log(k))] for [1 <= bytes <= k ^ 4],
    where the doubles give the exact floor of the logarithm to base 1024.
    For larger byte counts see [formatFileSizeWith]. *)
Definition unit_index (bytes : Z) : Z := Z.log2 bytes / 10.

(** [sizes[i]]. *)
Definition sizes_at (i : Z) : option string :=
  if i <? 0 then None else nth_error sizes (Z.to_nat i).

Definition formatFileSize (bytes : Z) : string :=
  if bytes =? 0 then "0 B"
  else if bytes <? 0 then "NaN undefined"
  else
    let i := unit_index bytes in
    Js.parseFloat_text (Js.toFixed1 bytes (k ^ i)) ++ " " ++ Js.template (sizes_at i).


(** ** MultiFileUpload *)

Module MultiFileUpload.

Record FileWithProgress := mkEntry {
  id : string;
  file : File;
  progress : Z;
  uploaded : bool
}.

(** A request handed to [axios.post] is pending until it resolves or
    rejects.  It remembers the call of [handleUpload] that issued it and
    the [fileWithProgress.id] its callbacks have captured. *)
Inductive Settlement := Pending | Resolved | Rejected.

Record Request := mkRequest {
  batch : nat;
  target : string;
  payload : File;
  outcome : Settlement
}.

(** The two [useState] cells, the value of the input element behind
    [inputRef], the requests issued so far in order of issue, the number
    of batches started, and what [console.error] has received (the
    position of the failed request). *)
Record State := mkState {
  files : list FileWithProgress;
  uploading : bool;
  inputValue : string;
  requests : list Request;
  batches : nat;
  console : list nat
}.

Definition mount : State := mkState [] false "" [] 0 [].

Definition setFiles (f : list FileWithProgress -> list FileWithProgress) (s : State) : State :=
  mkState (f (files s)) (uploading s) (inputValue s) (requests s) (batches s) (console s).

Definition setUploading (b : bool) (s : State) : State :=
  mkState (files s) b (inputValue s) (requests s) (batches s) (console s).

Definition setInputValue (v : string) (s : State) : State :=
  mkState (files s) (uploading s) v (requests s) (batches s) (console s).

Definition setRequests (f : list Request -> list Request) (s : State) : State :=
  mkState (files s) (uploading s) (inputValue s) (f (requests s)) (batches s) (console s).

Definition console_error (n : nat) (s : State) : State :=
  mkState (files s) (uploading s) (inputValue s) (requests s) (batches s)
          (console s ++ [n])%list.

(** *** handleFileSelect *)

Definition newEntry (f : File) : FileWithProgress :=
  {| file := f; progress := 0; uploaded := false; id := name f |}.

(** [e.target.files?.length] is falsy for a missing and for an empty list.
    [files] is the collection of the render the handler belongs to, which
    is the current one when the event is delivered. *)
Definition handleFileSelect (targetFiles : option (list File)) (s : State) : State :=
  match targetFiles with
  | None | Some [] => s
  | Some fs =>
      let newFiles := map newEntry fs in
      setInputValue "" (setFiles (fun _ => (files s ++ newFiles)%list) s)
  end.

(** *** handleUpload, up to its [await] *)

Definition post (b : nat) (fileWithProgress : FileWithProgress) : Request :=
  mkRequest b (id fileWithProgress) (file fileWithProgress) Pending.

Definition handleUpload (s : State) : State :=
  if (List.length (files s) =? 0)%nat || uploading s then s
  else
    let s1 := setUploading true s in
    let uploadPromises := map (post (batches s)) (files s) in
    mkState (files s1) (uploading s1) (inputValue s1)
            (requests s1 ++ uploadPromises)%list (S (batches s1)) (console s1).

(** *** The callbacks of one request *)

(** [progressEvent.total || 1]: an absent total and a total of zero are
    both falsy. *)
Definition total_or_1 (total : option Z) : Z :=
  match total with
  | Some t => if t =? 0 then 1 else t
  | None => 1
  end.

(** [Math.round((progressEvent.loaded * 100) / (progressEvent.total || 1))]
    at the exact value of the quotient.  The doubles give this value for
    a known total with [0 <= loaded <= total < 2 ^ 46], and for an absent
    or zero total with [0 <= loaded * 100 < 2 ^ 53]. *)
Definition percent (loaded : Z) (total : option Z) : Z :=
  Js.round_div (loaded * 100) (total_or_1 total).

(** The progress events for which the doubles give the exact quotient:
    a known total below 2^46 that the loaded count does not exceed, or an
    absent or zero total with [loaded * 100] below 2^53. *)
Definition percent_range (loaded : Z) (total : option Z) : Prop :=
  match total with
  | Some t =>
      if t =? 0 then 0 <= loaded /\ loaded * 100 < 2 ^ 53
      else 0 <= loaded <= t /\ t < 2 ^ 46
  | None => 0 <= loaded /\ loaded * 100 < 2 ^ 53
  end.

Definition withProgress (p : Z) (f : FileWithProgress) : FileWithProgress :=
  {| id := id f; file := file f; progress := p; uploaded := uploaded f |}.

Definition withUploaded (f : FileWithProgress) : FileWithProgress :=
  {| id := id f; file := file f; progress := progress f; uploaded := true |}.

(** The updater given to [setFiles] by [onUploadProgress]. *)
Definition progressUpdate (i : string) (p : Z) (prevFiles : list FileWithProgress)
  : list FileWithProgress :=
  map (fun f => if String.eqb (id f) i then withProgress p f else f) prevFiles.

(** The updater given to [setFiles] after the [await]. *)
Definition uploadedUpdate (i : string) (prevFiles : list FileWithProgress)
  : list FileWithProgress :=
  map (fun f => if String.eqb (id f) i then withUploaded f else f) prevFiles.

Definition onUploadProgress (i : string) (loaded : Z) (total : option Z) (s : State) : State :=
  setFiles (progressUpdate i (percent loaded total)) s.

(** *** The join: [await Promise.all(uploadPromises); setUploading(false)] *)

Definition settled (r : Request) : bool :=
  match outcome r with
  | Pending => false
  | _ => true
  end.

Definition batch_settled (b : nat) (rs : list Request) : bool :=
  forallb (fun r => negb (batch r =? b)%nat || settled r) rs.

Definition join (b : nat) (s : State) : State :=
  if batch_settled b (requests s) then setUploading false s else s.

Fixpoint settle_at (n : nat) (o : Settlement) (rs : list Request) : list Request :=
  match rs, n with
  | [], _ => []
  | r :: rs', O => mkRequest (batch r) (target r) (payload r) o :: rs'
  | r :: rs', S n' => r :: settle_at n' o rs'
  end.

(** Request [n] resolves: the rest of the [try] block runs, the wrapper
    promise is fulfilled, and the join is tried. *)
Definition resolved (n : nat) (s : State) : State :=
  match nth_error (requests s) n with
  | None => s
  | Some r =>
      join (batch r)
        (setFiles (uploadedUpdate (target r))
           (setRequests (settle_at n Resolved) s))
  end.

(** Request [n] rejects: the [catch] block logs, the wrapper promise is
    fulfilled all the same, and the join is tried. *)
Definition rejected (n : nat) (s : State) : State :=
  match nth_error (requests s) n with
  | None => s
  | Some r =>
      join (batch r)
        (console_error n (setRequests (settle_at n Rejected) s))
  end.

(** *** removeFile and handleClear *)

Definition removeFile (i : string) (s : State) : State :=
  setFiles (filter (fun f => negb (String.eqb (id f) i))) s.

Definition handleClear (s : State) : State :=
  setFiles (fun _ => []) s.

(** *** The view: which controls can be operated *)

Definition FileInput_disabled (s : State) : bool := uploading s.

Definition ActionButtons_disabled (s : State) : bool :=
  (List.length (files s) =? 0)%nat || uploading s.

(** [FileItem] renders its removal button under [!uploading], one item
    per entry of [files]. *)
Definition removeButton_rendered (i : string) (s : State) : bool :=
  negb (uploading s) && existsb (fun f => String.eqb (id f) i) (files s).

(** The text next to the bar.  [progress] is an integer, which
    [Math.round] leaves as it is. *)
Definition FileItem_text (f : FileWithProgress) : string :=
  if uploaded f then "Completed" else Js.toString (progress f) ++ "%".

(** *** Events *)

Inductive Event :=
| Select (targetFiles : option (list File))
| ClickUpload
| ClickClear
| ClickRemove (i : string)
| Progress (n : nat) (loaded : Z) (total : option Z)
| Resolve (n : nat)
| Reject (n : nat).

Definition is_user (e : Event) : bool :=
  match e with
  | Select _ | ClickUpload | ClickClear | ClickRemove _ => true
  | _ => false
  end.

Definition pending (n : nat) (s : State) : bool :=
  match nth_error (requests s) n with
  | Some r => negb (settled r)
  | None => false
  end.

Definition enabled (s : State) (e : Event) : bool :=
  match e with
  | Select _ => negb (FileInput_disabled s)
  | ClickUpload | ClickClear => negb (ActionButtons_disabled s)
  | ClickRemove i => removeButton_rendered i s
  | Progress n _ _ | Resolve n | Reject n => pending n s
  end.

(** The browser puts the picked file's fake path into the input before
    the change event is delivered. *)
Definition picked (targetFiles : option (list File)) (s : State) : State :=
  match targetFiles with
  | Some (f :: _) => setInputValue ("C:\fakepath\" ++ name f) s
  | _ => s
  end.

Definition handle (e : Event) (s : State) : State :=
  match e with
  | Select fs => handleFileSelect fs (picked fs s)
  | ClickUpload => handleUpload s
  | ClickClear => handleClear s
  | ClickRemove i => removeFile i s
  | Progress n loaded total =>
      match nth_error (requests s) n with
      | Some r => onUploadProgress (target r) loaded total s
      | None => s
      end
  | Resolve n => resolved n s
  | Reject n => rejected n s
  end.

Definition step (s : State) (e : Event) : option State :=
  if enabled s e then Some (handle e s) else None.

Fixpoint run (s : State) (es : list Event) : option State :=
  match es with
  | [] => Some s
  | e :: es' =>
      match step s e with
      | Some s' => run s' es'
      | None => None
      end
  end.

Inductive reachable : State -> Prop :=
| reachable_mount : reachable mount
| reachable_step s e s' : reachable s -> step s e = Some s' -> reachable s'.


(** What holds of the requests in every state the component reaches:
    batch numbers are below the counter, and a request that has not
    settled belongs to the last batch, whose flag is still set. *)
Definition invariant (s : State) : Prop :=
  (forall r, In r (requests s) -> (batch r < batches s)%nat)
  /\ (forall r, In r (requests s) -> settled r = false ->
                uploading s = true /\ S (batch r) = batches s).

End MultiFileUpload.

(** ** FileUploader *)

Module FileUploader.

Inductive UploadStatus := idle | uploading | success | error.

(** The two [useState] cells and the number of requests in flight. *)
Record State := mkState {
  file : option File;
  status : UploadStatus;
  inflight : nat
}.

Definition mount : State := mkState None idle 0.

Definition setFile (f : option File) (s : State) : State :=
  mkState f (status s) (inflight s).

Definition setStatus (u : UploadStatus) (s : State) : State :=
  mkState (file s) u (inflight s).

(** [e.target.files[0]] is [undefined] for an empty list. *)
Definition handleFileChange (targetFiles : option (list File)) (s : State) : State :=
  match targetFiles with
  | Some fs => setFile (hd_error fs) s
  | None => s
  end.

(** handleFileUpload, up to its [await]. *)
Definition handleFileUpload (s : State) : State :=
  match file s with
  | None => s
  | Some _ =>
      let s1 := setStatus uploading s in
      mkState (file s1) (status s1) (S (inflight s1))
  end.

(** The rest of the [try] block, and the [catch] block. *)
Definition resolved (s : State) : State :=
  setStatus success (mkState (file s) (status s) (pred (inflight s))).

Definition rejected (s : State) : State :=
  setStatus error (mkState (file s) (status s) (pred (inflight s))).

Definition is_uploading (u : UploadStatus) : bool :=
  match u with
  | uploading => true
  | _ => false
  end.

(** [file && status !== 'uploading' && <button onClick={handleFileUpload}>]. *)
Definition uploadButton_rendered (s : State) : bool :=
  match file s with
  | Some _ => negb (is_uploading (status s))
  | None => false
  end.

Inductive Event :=
| FileChange (targetFiles : option (list File))
| ClickUpload
| Resolve
| Reject.

Definition enabled (s : State) (e : Event) : bool :=
  match e with
  | FileChange _ => true
  | ClickUpload => uploadButton_rendered s
  | Resolve | Reject => (0 <? inflight s)%nat
  end.

Definition handle (e : Event) (s : State) : State :=
  match e with
  | FileChange fs => handleFileChange fs s
  | ClickUpload => handleFileUpload s
  | Resolve => resolved s
  | Reject => rejected s
  end.

Definition step (s : State) (e : Event) : option State :=
  if enabled s e then Some (handle e s) else None.

(** The states a sequence of events leads through, the first one
    included; [None] when some event cannot occur. *)
Fixpoint states (s : State) (es : list Event) : option (list State) :=
  match es with
  | [] => Some [s]
  | e :: es' =>
      match step s e with
      | Some s' => option_map (cons s) (states s' es')
      | None => None
      end
  end.

Definition statuses (s : State) (es : list Event) : option (list UploadStatus) :=
  option_map (map status) (states s es).

Inductive reachable : State -> Prop :=
| reachable_mount : reachable mount
| reachable_step s e s' : reachable s -> step s e = Some s' -> reachable s'.

(** The changes of status the specification lists. *)
Definition listed (a b : UploadStatus) : bool :=
  match a, b with
  | idle, uploading | uploading, success | uploading, error => true
  | _, _ => false
  end.

(** The changes of status the component makes. *)
Definition transition (a b : UploadStatus) : bool :=
  match a, b with
  | idle, uploading | success, uploading | error, uploading => true
  | uploading, success | uploading, error => true
  | _, _ => false
  end.

Definition same (a b : UploadStatus) : bool :=
  match a, b with
  | idle, idle | uploading, uploading | success, success | error, error => true
  | _, _ => false
  end.

(** What holds in every state the component reaches: a request is in
    flight exactly while the status is uploading, and there is at most
    one. *)
Definition invariant (s : State) : Prop :=
  (inflight s = 0%nat /\ is_uploading (status s) = false)
  \/ (inflight s = 1%nat /\ status s = uploading).

End FileUploader.

(** ** MultiFileUpload: what is rendered *)

Module MultiView.

Inductive Icon := FileImage | FileVideo | FileAudio | FileText | FileIcon.

(** [s.startsWith(p)]. *)
Definition startsWith (s p : string) : bool := String.prefix p s.

Definition getFileIcon (mimeType : string) : Icon :=
  if startsWith mimeType "image/" then FileImage
  else if startsWith mimeType "video/" then FileVideo
  else if startsWith mimeType "audio/" then FileAudio
  else if String.eqb mimeType "application/pdf" then FileText
  else FileIcon.

(** The width of the filled part of the bar. *)
Definition ProgressBar (progress : Z) : string := Js.toString progress ++ "%".

(** One row of the list: the icon, the name, the size (the text of
    [formatFileSize], which is the engine's for sizes up to 1024^4), the type or its
    placeholder (an empty string is falsy), whether the removal button is
    there, the text at the right and the bar. *)
Record Row := mkRow {
  icon : Icon;
  label : string;
  sizeText : string;
  typeText : string;
  removeButton : bool;
  statusText : string;
  bar : string
}.

Definition FileItem (f : MultiFileUpload.FileWithProgress) (uploading : bool) : Row :=
  {| icon := getFileIcon (type (MultiFileUpload.file f));
     label := name (MultiFileUpload.file f);
     sizeText := formatFileSize (size (MultiFileUpload.file f));
     typeText := if String.eqb (type (MultiFileUpload.file f)) "" then "Unknown type"
                 else type (MultiFileUpload.file f);
     removeButton := negb uploading;
     statusText := MultiFileUpload.FileItem_text f;
     bar := ProgressBar (MultiFileUpload.progress f) |}.

(** [FileList] returns [null] for an empty collection. *)
Definition FileList (files : list MultiFileUpload.FileWithProgress) (uploading : bool)
  : option (list Row) :=
  if (List.length files =? 0)%nat then None
  else Some (map (fun f => FileItem f uploading) files).

Definition render (s : MultiFileUpload.State) : option (list Row) :=
  FileList (MultiFileUpload.files s) (MultiFileUpload.uploading s).

(** The requests that have not settled, in order of issue. *)
Definition pendingRequests (s : MultiFileUpload.State) : list MultiFileUpload.Request :=
  filter (fun r => negb (MultiFileUpload.settled r)) (MultiFileUpload.requests s).

(** The files of a change event, none when the list is missing. *)
Definition selection (fs : option (list File)) : list File :=
  match fs with
  | Some l => l
  | None => []
  end.

(** A set flag has a request that has not settled. *)
Definition waiting (s : MultiFileUpload.State) : Prop :=
  MultiFileUpload.uploading s = true ->
  exists r, In r (MultiFileUpload.requests s) /\ MultiFileUpload.settled r = false.

End MultiView.

(** ** FileUploader: what is rendered *)

Module UploaderView.

(** The text of [x.toFixed(2)] for a non-negative number of hundredths. *)
Definition toFixed2_text (hundredths : Z) : string :=
  Js.toString (hundredths / 100) ++ "."
  ++ Js.toString (hundredths / 10 mod 10) ++ Js.toString (hundredths mod 10).

(** [(file.size / 1024).toFixed(2)], kept as its number of hundredths. *)
Definition sizeHundredths (bytes : Z) : Z := Js.round_div (100 * bytes) 1024.

(** [<p>Size: {(file.size / 1024).toFixed(2)} KB</p>]. *)
Definition sizeLine (f : File) : string :=
  "Size: " ++ toFixed2_text (sizeHundredths (size f)) ++ " KB".

Record View := mkView {
  fileInfo : option (string * string * string);
  uploadButton : bool;
  successMessage : bool;
  errorMessage : bool
}.

Definition render (s : FileUploader.State) : View :=
  {| fileInfo :=
       match FileUploader.file s with
       | Some f => Some ("File name: " ++ name f, sizeLine f, "Type: " ++ type f)
       | None => None
       end;
     uploadButton := FileUploader.uploadButton_rendered s;
     successMessage :=
       match FileUploader.status s with FileUploader.success => true | _ => false end;
     errorMessage :=
       match FileUploader.status s with FileUploader.error => true | _ => false end |}.

End UploaderView.

(** ** FileUploader, the variant whose button has no click handler *)

Module FileUploaderDraft.

(** The state and the handlers are those of [FileUploader]; the button is
    rendered under the same condition but a click on it calls nothing, and
    no message is rendered. *)
Definition handle (e : FileUploader.Event) (s : FileUploader.State) : FileUploader.State :=
  match e with
  | FileUploader.FileChange fs => FileUploader.handleFileChange fs s
  | FileUploader.ClickUpload => s
  | FileUploader.Resolve => FileUploader.resolved s
  | FileUploader.Reject => FileUploader.rejected s
  end.

Definition step (s : FileUploader.State) (e : FileUploader.Event) : option FileUploader.State :=
  if FileUploader.enabled s e then Some (handle e s) else None.

Inductive reachable : FileUploader.State -> Prop :=
| reachable_mount : reachable FileUploader.mount
| reachable_step s e s' : reachable s -> step s e = Some s' -> reachable s'.

End FileUploaderDraft.

(** ** FileUploader: runs *)

Module UploaderTrace.

Fixpoint run (s : FileUploader.State) (es : list FileUploader.Event)
  : option FileUploader.State :=
  match es with
  | [] => Some s
  | e :: es' =>
      match FileUploader.step s e with
      | Some s' => run s' es'
      | None => None
      end
  end.

(** The file that the change events of a run leave selected. *)
Fixpoint selected (current : option File) (es : list FileUploader.Event) : option File :=
  match es with
  | [] => current
  | FileUploader.FileChange (Some fs) :: es' => selected (hd_error fs) es'
  | _ :: es' => selected current es'
  end.

(** The clicks on the upload button and the settlements in a run. *)
Fixpoint clicks (es : list FileUploader.Event) : nat :=
  match es with
  | [] => 0
  | FileUploader.ClickUpload :: es' => S (clicks es')
  | _ :: es' => clicks es'
  end.

Fixpoint settlements (es : list FileUploader.Event) : nat :=
  match es with
  | [] => 0
  | FileUploader.Resolve :: es' | FileUploader.Reject :: es' => S (settlements es')
  | _ :: es' => settlements es'
  end.

End UploaderTrace.

(** * Properties *)

(** ** formatFileSize *)

Section Formatter.

Lemma k_pow (i : Z) : 0 <= i -> k ^ i = 2 ^ (10 * i).
Proof.
  intros Hi. unfold k. change 1024 with (2 ^ 10).
  rewrite <- Z.pow_mul_r by lia. reflexivity.
Qed.

Lemma unit_index_nonneg (bytes : Z) : 0 <= unit_index bytes.
Proof.
  unfold unit_index. apply Z.div_pos; [apply Z.log2_nonneg | lia].
Qed.

(** The index picks the power of 1024 just below the byte count. *)
Lemma unit_index_bounds (bytes : Z) :
  0 < bytes ->
  k ^ unit_index bytes <= bytes < k ^ (unit_index bytes + 1).
Proof.
  intros Hb.
  pose proof (unit_index_nonneg bytes) as Hi.
  destruct (Z.log2_spec bytes Hb) as [Hlo Hhi].
  pose proof (Z.log2_nonneg bytes) as Hl.
  rewrite !k_pow by lia. unfold unit_index in *.
  pose proof (Z.div_mod (Z.log2 bytes) 10 ltac:(lia)) as Hdm.
  pose proof (Z.mod_pos_bound (Z.log2 bytes) 10 ltac:(lia)) as Hm.
  split.
  - apply Z.le_trans with (2 ^ Z.log2 bytes); [| exact Hlo].
    apply Z.pow_le_mono_r; lia.
  - apply Z.lt_le_trans with (2 ^ Z.succ (Z.log2 bytes)); [exact Hhi |].
    apply Z.pow_le_mono_r; lia.
Qed.

Lemma unit_index_mono (a b : Z) : 0 < a -> a <= b -> unit_index a <= unit_index b.
Proof.
  intros Ha Hab. unfold unit_index.
  apply Z.div_le_mono; [lia | apply Z.log2_le_mono; exact Hab].
Qed.

Lemma unit_index_small (bytes : Z) :
  0 < bytes -> bytes < k ^ 4 -> unit_index bytes < 4.
Proof.
  intros Hb Hlt.
  destruct (Z.lt_ge_cases (unit_index bytes) 4) as [H | H]; [exact H | exfalso].
  destruct (unit_index_bounds bytes Hb) as [Hlo _].
  assert (k ^ 4 <= k ^ unit_index bytes)
    by (apply Z.pow_le_mono_r; unfold k; lia).
  lia.
Qed.

Lemma unit_index_large (bytes : Z) : k ^ 4 <= bytes -> 4 <= unit_index bytes.
Proof.
  intros Hge.
  change 4 with (unit_index (k ^ 4)) at 1.
  apply unit_index_mono; [reflexivity | exact Hge].
Qed.

Lemma sizes_at_some (i : Z) : 0 <= i < 4 -> exists u, sizes_at i = Some u /\ In u sizes.
Proof.
  intros Hi.
  assert (i = 0 \/ i = 1 \/ i = 2 \/ i = 3) as [-> | [-> | [-> | ->]]] by lia;
    eexists; (split; [reflexivity | simpl; tauto]).
Qed.


(** [Math.round] and [toFixed] are off by at most a half. *)
Lemma round_div_nearest (a b : Z) :
  0 < b -> - b <= 2 * (a - b * Js.round_div a b) < b.
Proof.
  intros Hb. unfold Js.round_div.
  pose proof (Z.div_mod (2 * a + b) (2 * b) ltac:(lia)) as Hdm.
  pose proof (Z.mod_pos_bound (2 * a + b) (2 * b) ltac:(lia)) as Hm.
  generalize dependent ((2 * a + b) / (2 * b)).
  generalize dependent ((2 * a + b) mod (2 * b)).
  intros r Hr q Hq. nia.
Qed.

Lemma formatFileSize_positive (bytes : Z) :
  0 < bytes ->
  formatFileSize bytes =
    Js.parseFloat_text (Js.toFixed1 bytes (k ^ unit_index bytes))
    ++ " " ++ Js.template (sizes_at (unit_index bytes)).
Proof.
  intros Hb. unfold formatFileSize.
  destruct (bytes =? 0) eqn:E0; [apply Z.eqb_eq in E0; lia |].
  destruct (bytes <? 0) eqn:E1; [apply Z.ltb_lt in E1; lia |].
  reflexivity.
Qed.

End Formatter.

Example formatFileSize_examples :
  map formatFileSize [1; 1023; 1024; 1048575; 1610612736; 1099511627775]
  = ["1 B"; "1023 B"; "1 KB"; "1024 KB"; "1.5 GB"; "1024 GB"].
Proof. vm_compute. reflexivity. Qed.

(** C2 (as stated): the formatter does not write "1.0 MB" for 1048576
    bytes; [parseFloat] has removed the fractional zero that [toFixed]
    wrote. *)
Lemma formatFileSize_one_MB_counterexample :
  Js.toFixed1_text (Js.toFixed1 1048576 (k ^ unit_index 1048576)) = "1.0"
  /\ formatFileSize 1048576 = "1 MB"
  /\ formatFileSize 1048576 <> "1.0 MB".
Proof.
  split; [vm_compute; reflexivity |].
  split; [vm_compute; reflexivity |].
  vm_compute. discriminate.
Qed.

(** C2 (amended): [formatFileSize 0] is "0 B", [formatFileSize 1536] is
    "1.5 KB" and [formatFileSize 1048576] is "1 MB".  For a byte count
    between 1 and 1024^4 - 1 the unit is the entry [i] of B/KB/MB/GB with
    1024^i <= bytes < 1024^(i+1), and the number is bytes / 1024^i rounded
    to the nearest tenth (a tie going up), written without its decimal when
    that is zero and with one decimal otherwise. *)
Theorem formatFileSize_spec :
  (formatFileSize 0 = "0 B"
   /\ formatFileSize 1536 = "1.5 KB"
   /\ formatFileSize 1048576 = "1 MB")
  /\ forall bytes, 0 < bytes < k ^ 4 ->
     exists (i : nat) (u : string) (tenths : Z),
       nth_error sizes i = Some u
       /\ k ^ Z.of_nat i <= bytes < k ^ (Z.of_nat i + 1)
       /\ - k ^ Z.of_nat i <= 2 * (10 * bytes - k ^ Z.of_nat i * tenths) < k ^ Z.of_nat i
       /\ formatFileSize bytes
          = (if tenths mod 10 =? 0 then Js.toString (tenths / 10)
             else Js.toString (tenths / 10) ++ "." ++ Js.toString (tenths mod 10))
            ++ " " ++ u.
Proof.
  split; [repeat split; vm_compute; reflexivity |].
  intros bytes [Hpos Hlt].
  pose proof (unit_index_nonneg bytes) as Hi0.
  pose proof (unit_index_small bytes Hpos Hlt) as Hi4.
  pose proof (unit_index_bounds bytes Hpos) as Hb.
  destruct (sizes_at_some (unit_index bytes) (conj Hi0 Hi4)) as [u [Hu _]].
  exists (Z.to_nat (unit_index bytes)), u,
         (Js.toFixed1 bytes (k ^ unit_index bytes)).
  rewrite Z2Nat.id by exact Hi0.
  split.
  { unfold sizes_at in Hu.
    destruct (unit_index bytes <? 0) eqn:E; [discriminate | exact Hu]. }
  split; [exact Hb |].
  split.
  { unfold Js.toFixed1. apply round_div_nearest.
    apply Z.pow_pos_nonneg; [reflexivity | exact Hi0]. }
  rewrite (formatFileSize_positive bytes Hpos), Hu. reflexivity.
Qed.

Lemma formatFileSize_spec_witness :
  0 < 1536 < k ^ 4
  /\ exists (i : nat) (u : string) (tenths : Z),
       nth_error sizes i = Some u
       /\ k ^ Z.of_nat i <= 1536 < k ^ (Z.of_nat i + 1)
       /\ - k ^ Z.of_nat i <= 2 * (10 * 1536 - k ^ Z.of_nat i * tenths) < k ^ Z.of_nat i
       /\ formatFileSize 1536
          = (if tenths mod 10 =? 0 then Js.toString (tenths / 10)
             else Js.toString (tenths / 10) ++ "." ++ Js.toString (tenths mod 10))
            ++ " " ++ u.
Proof.
  split; [split; reflexivity |].
  apply (proj2 formatFileSize_spec 1536). split; reflexivity.
Defined.

(** ** formatFileSize from 1024^4 on *)

Section LargeSizes.

(** [Math.floor(Math.log(bytes) / Math.log(k))] as the engine computes
    it. *)
Variable floor_log : Z -> Z.

(** Up to 1024^4 the doubles give the exact floor of the logarithm. *)
Hypothesis floor_log_exact :
  forall bytes, 0 < bytes <= k ^ 4 -> floor_log bytes = unit_index bytes.

(** [Math.log], the division by the positive [Math.log(k)] and
    [Math.floor] do not decrease. *)
Hypothesis floor_log_monotone :
  forall a b, 0 < a -> a <= b -> floor_log a <= floor_log b.





End LargeSizes.


(** ** MultiFileUpload: the handlers *)

Module MultiFacts.
Import MultiFileUpload.

Lemma handleFileSelect_files (fs : list File) (s : State) :
  files (handleFileSelect (Some fs) s) = (files s ++ map newEntry fs)%list.
Proof.
  destruct fs as [| f fs]; simpl.
  - rewrite app_nil_r. reflexivity.
  - reflexivity.
Qed.

Lemma picked_files (fs : option (list File)) (s : State) :
  files (picked fs s) = files s.
Proof. destruct fs as [[| f fs] |]; reflexivity. Qed.

Lemma filter_id (A : Type) (p : A -> bool) (l : list A) :
  filter p l = l <-> forall x, In x l -> p x = true.
Proof.
  split.
  - intros H x Hx. rewrite <- H in Hx. apply filter_In in Hx. tauto.
  - induction l as [| a l IH]; intros H; simpl; [reflexivity |].
    rewrite (H a (or_introl eq_refl)). f_equal.
    apply IH. intros x Hx. apply H. right. exact Hx.
Qed.

Lemma removeFile_files (i : string) (s : State) :
  files (removeFile i s) = filter (fun f => negb (String.eqb (id f) i)) (files s).
Proof. reflexivity. Qed.

Lemma progressUpdate_nth (i : string) (p : Z) (l : list FileWithProgress) (n : nat) :
  nth_error (progressUpdate i p l) n =
  option_map (fun f => if String.eqb (id f) i then withProgress p f else f)
             (nth_error l n).
Proof. unfold progressUpdate. apply nth_error_map. Qed.

Lemma round_div_1 (a : Z) : Js.round_div a 1 = a.
Proof.
  unfold Js.round_div. replace (2 * a + 1) with (1 + a * (2 * 1)) by lia.
  rewrite Z.div_add by lia. reflexivity.
Qed.

Lemma round_div_range (a b c : Z) :
  0 < b -> 0 <= a -> a <= c * b -> 0 <= Js.round_div a b <= c.
Proof.
  intros Hb Ha Hc. unfold Js.round_div. split.
  - apply Z.div_pos; lia.
  - apply Z.lt_succ_r. apply Z.div_lt_upper_bound; [lia |]. nia.
Qed.

End MultiFacts.

(** C8: a selection is appended to the collection in the order given;
    selecting [A] and then [B] leaves the previous collection followed by
    the entries of [A] and [B] (also when [A] and [B] are the same file), and
    every new entry has progress 0, is not completed, and is named after its
    file. *)
Theorem handleFileSelect_appends :
  (forall (s : MultiFileUpload.State) (A B : File),
      MultiFileUpload.files
        (MultiFileUpload.handleFileSelect (Some [B])
           (MultiFileUpload.handleFileSelect (Some [A]) s))
      = (MultiFileUpload.files s
           ++ [MultiFileUpload.mkEntry (name A) A 0 false;
               MultiFileUpload.mkEntry (name B) B 0 false])%list)
  /\ (forall (s : MultiFileUpload.State) (fs : list File),
         MultiFileUpload.files (MultiFileUpload.handleFileSelect (Some fs) s)
         = (MultiFileUpload.files s ++ map MultiFileUpload.newEntry fs)%list
         /\ MultiFileUpload.files (MultiFileUpload.handle (MultiFileUpload.Select (Some fs)) s)
            = (MultiFileUpload.files s ++ map MultiFileUpload.newEntry fs)%list)
  /\ (forall f : File,
         MultiFileUpload.newEntry f = MultiFileUpload.mkEntry (name f) f 0 false).
Proof.
  split; [| split].
  - intros s A B. rewrite !MultiFacts.handleFileSelect_files.
    rewrite <- app_assoc. reflexivity.
  - intros s fs. split.
    + apply MultiFacts.handleFileSelect_files.
    + cbn [MultiFileUpload.handle].
      rewrite MultiFacts.handleFileSelect_files, MultiFacts.picked_files.
      reflexivity.
  - reflexivity.
Qed.

(** C7: with an empty collection, or with the uploading flag set,
    handleUpload returns the state it was given: the same collection, the
    same flag and the same list of issued requests. *)
Theorem handleUpload_noop (s : MultiFileUpload.State) :
  MultiFileUpload.files s = [] \/ MultiFileUpload.uploading s = true ->
  MultiFileUpload.handleUpload s = s
  /\ MultiFileUpload.files (MultiFileUpload.handleUpload s) = MultiFileUpload.files s
  /\ MultiFileUpload.uploading (MultiFileUpload.handleUpload s) = MultiFileUpload.uploading s
  /\ MultiFileUpload.requests (MultiFileUpload.handleUpload s) = MultiFileUpload.requests s.
Proof.
  intros H.
  assert (MultiFileUpload.handleUpload s = s) as E.
  { unfold MultiFileUpload.handleUpload. destruct H as [H | H]; rewrite H.
    - reflexivity.
    - rewrite orb_true_r. reflexivity. }
  rewrite E. repeat split; reflexivity.
Qed.

Lemma handleUpload_noop_witness :
  let busy := MultiFileUpload.mkState
                [MultiFileUpload.newEntry photo] true ""
                [MultiFileUpload.post 0 (MultiFileUpload.newEntry photo)] 1 [] in
  MultiFileUpload.handleUpload MultiFileUpload.mount = MultiFileUpload.mount
  /\ MultiFileUpload.handleUpload busy = busy.
Proof.
  split.
  - apply (handleUpload_noop MultiFileUpload.mount). left. reflexivity.
  - apply (handleUpload_noop
             (MultiFileUpload.mkState
                [MultiFileUpload.newEntry photo] true ""
                [MultiFileUpload.post 0 (MultiFileUpload.newEntry photo)] 1 [])).
    right. reflexivity.
Defined.

(** C9: removeFile keeps exactly the entries whose identifier differs from
    the one given, in their order; so no entry with that identifier is left,
    and two entries made from files of one name are removed together. *)
Theorem removeFile_removes_all :
  (forall (i : string) (s : MultiFileUpload.State),
      MultiFileUpload.files (MultiFileUpload.removeFile i s)
      = filter (fun f => negb (String.eqb (MultiFileUpload.id f) i)) (MultiFileUpload.files s)
      /\ (forall f, In f (MultiFileUpload.files (MultiFileUpload.removeFile i s)) <->
                    In f (MultiFileUpload.files s) /\ MultiFileUpload.id f <> i))
  /\ (forall (n : string) (size1 size2 : Z) (type1 type2 : string),
         MultiFileUpload.files
           (MultiFileUpload.removeFile n
              (MultiFileUpload.handleFileSelect
                 (Some [mkFile n size1 type1; mkFile n size2 type2])
                 MultiFileUpload.mount))
         = []).
Proof.
  split.
  - intros i s. split; [reflexivity |].
    intros f. rewrite MultiFacts.removeFile_files, filter_In, negb_true_iff.
    rewrite String.eqb_neq. reflexivity.
  - intros n size1 size2 type1 type2. simpl.
    rewrite String.eqb_refl. reflexivity.
Qed.

(** C3 (as stated): removeFile does not look at the uploading flag.  In the
    state reached by selecting a file and starting the upload the flag is
    set, and removeFile still empties the collection. *)
Lemma removeFile_while_uploading_counterexample :
  exists s,
    MultiFileUpload.run MultiFileUpload.mount
      [MultiFileUpload.Select (Some [photo]); MultiFileUpload.ClickUpload] = Some s
    /\ MultiFileUpload.uploading s = true
    /\ MultiFileUpload.files s = [MultiFileUpload.newEntry photo]
    /\ MultiFileUpload.files (MultiFileUpload.removeFile "photo.png" s) = []
    /\ MultiFileUpload.files (MultiFileUpload.removeFile "photo.png" s)
       <> MultiFileUpload.files s.
Proof.
  eexists. split; [vm_compute; reflexivity |].
  split; [reflexivity |].
  split; [reflexivity |].
  split; [reflexivity |].
  vm_compute. discriminate.
Qed.

(** C3 (amended): while the uploading flag is set the view renders no
    removal button, so the click that calls removeFile cannot occur.
    removeFile itself has no guard: called in such a state it drops the
    entries with the given identifier all the same, and leaves the
    collection as it was only when no entry has that identifier. *)
Theorem removeFile_guarded_by_view (s : MultiFileUpload.State) (i : string) :
  MultiFileUpload.uploading s = true ->
  MultiFileUpload.removeButton_rendered i s = false
  /\ MultiFileUpload.step s (MultiFileUpload.ClickRemove i) = None
  /\ MultiFileUpload.files (MultiFileUpload.removeFile i s)
     = filter (fun f => negb (String.eqb (MultiFileUpload.id f) i)) (MultiFileUpload.files s)
  /\ (MultiFileUpload.files (MultiFileUpload.removeFile i s) = MultiFileUpload.files s
      <-> forall f, In f (MultiFileUpload.files s) -> MultiFileUpload.id f <> i).
Proof.
  intros Hup.
  assert (MultiFileUpload.removeButton_rendered i s = false) as Hb
    by (unfold MultiFileUpload.removeButton_rendered; rewrite Hup; reflexivity).
  split; [exact Hb |].
  split.
  { unfold MultiFileUpload.step. cbn [MultiFileUpload.enabled]. rewrite Hb. reflexivity. }
  split; [reflexivity |].
  rewrite MultiFacts.removeFile_files, MultiFacts.filter_id.
  split; intros H f Hf.
  - apply String.eqb_neq, negb_true_iff, H, Hf.
  - apply negb_true_iff, String.eqb_neq, H, Hf.
Qed.

Lemma removeFile_guarded_by_view_witness :
  let s := MultiFileUpload.handleUpload
             (MultiFileUpload.handleFileSelect (Some [photo]) MultiFileUpload.mount) in
  MultiFileUpload.uploading s = true
  /\ MultiFileUpload.step s (MultiFileUpload.ClickRemove "photo.png") = None.
Proof.
  split; [reflexivity |].
  apply (removeFile_guarded_by_view
           (MultiFileUpload.handleUpload
              (MultiFileUpload.handleFileSelect (Some [photo]) MultiFileUpload.mount))
           "photo.png").
  reflexivity.
Defined.

(** C1 (as stated): two files of one name give two entries with one
    identifier, and a progress event of the first entry's request sets the
    progress of the second entry too. *)
Lemma progress_same_name_counterexample :
  let X := MultiFileUpload.newEntry report in
  let Y := MultiFileUpload.newEntry report' in
  exists s s',
    MultiFileUpload.run MultiFileUpload.mount
      [MultiFileUpload.Select (Some [report; report']); MultiFileUpload.ClickUpload] = Some s
    /\ MultiFileUpload.files s = [X; Y]
    /\ X <> Y
    /\ option_map MultiFileUpload.payload (nth_error (MultiFileUpload.requests s) 0)
       = Some (MultiFileUpload.file X)
    /\ MultiFileUpload.step s (MultiFileUpload.Progress 0 50 (Some 100)) = Some s'
    /\ option_map MultiFileUpload.progress (nth_error (MultiFileUpload.files s) 1) = Some 0
    /\ option_map MultiFileUpload.progress (nth_error (MultiFileUpload.files s') 1) = Some 50.
Proof.
  do 2 eexists.
  split; [vm_compute; reflexivity |].
  split; [reflexivity |].
  split; [discriminate |].
  split; [reflexivity |].
  split; [vm_compute; reflexivity |].
  split; reflexivity.
Qed.

(** C1 (amended): a progress update routed by the identifier [i] keeps the
    length and order of the collection; it leaves every entry whose
    identifier differs from [i] as it was, changes the completion flag,
    the file and the identifier of no entry, and gives the new progress to
    every entry whose identifier is [i] (all the entries made from files of
    that name). *)
Theorem progressUpdate_frame
  (i : string) (p : Z) (prevFiles : list MultiFileUpload.FileWithProgress)
  (n : nat) (y : MultiFileUpload.FileWithProgress) :
  nth_error prevFiles n = Some y ->
  exists y',
    nth_error (MultiFileUpload.progressUpdate i p prevFiles) n = Some y'
    /\ List.length (MultiFileUpload.progressUpdate i p prevFiles) = List.length prevFiles
    /\ MultiFileUpload.uploaded y' = MultiFileUpload.uploaded y
    /\ MultiFileUpload.file y' = MultiFileUpload.file y
    /\ MultiFileUpload.id y' = MultiFileUpload.id y
    /\ (MultiFileUpload.id y <> i -> y' = y)
    /\ (MultiFileUpload.id y = i -> MultiFileUpload.progress y' = p).
Proof.
  intros Hy.
  exists (if String.eqb (MultiFileUpload.id y) i
          then MultiFileUpload.withProgress p y else y).
  split; [rewrite MultiFacts.progressUpdate_nth, Hy; reflexivity |].
  split; [apply length_map |].
  destruct (String.eqb (MultiFileUpload.id y) i) eqn:E.
  - apply String.eqb_eq in E. repeat split; try reflexivity.
    intros Hne. contradiction.
  - apply String.eqb_neq in E. repeat split; try reflexivity.
    intros He. contradiction.
Qed.

Lemma progressUpdate_frame_witness :
  exists y',
    nth_error (MultiFileUpload.progressUpdate "report.pdf" 50
                 [MultiFileUpload.newEntry report; MultiFileUpload.newEntry photo]) 1
    = Some y'
    /\ y' = MultiFileUpload.newEntry photo.
Proof.
  destruct (progressUpdate_frame "report.pdf" 50
              [MultiFileUpload.newEntry report; MultiFileUpload.newEntry photo]
              1 (MultiFileUpload.newEntry photo) eq_refl)
    as [y' [H1 [_ [_ [_ [_ [H2 _]]]]]]].
  exists y'. split; [exact H1 |].
  apply H2. discriminate.
Defined.

(** C4 (as stated): with the total unknown the divisor is 1, and five
    bytes loaded are stored as a progress of 500. *)
Lemma percent_unknown_total_counterexample :
  exists s s',
    MultiFileUpload.run MultiFileUpload.mount
      [MultiFileUpload.Select (Some [photo]); MultiFileUpload.ClickUpload] = Some s
    /\ MultiFileUpload.step s (MultiFileUpload.Progress 0 5 None) = Some s'
    /\ map MultiFileUpload.progress (MultiFileUpload.files s') = [500]
    /\ ~ (0 <= MultiFileUpload.percent 5 None <= 100).
Proof.
  do 2 eexists.
  split; [vm_compute; reflexivity |].
  split; [vm_compute; reflexivity |].
  split; [reflexivity |].
  vm_compute. intros [_ H]. apply H. reflexivity.
Qed.

(** C4 (amended): a progress event with [loaded] bytes and an optional
    total stores, in every entry the event is routed to, the value of
    Math.round (loaded * 100 / total), with 1 for the total when it is
    absent or zero.  For a known total with 0 <= loaded <= total < 2^46
    this is the integer nearest to loaded * 100 / total (a tie going up)
    and lies between 0 and 100; with the total absent or zero and
    0 <= loaded * 100 < 2^53 it is loaded * 100, which is above 100 from
    two loaded bytes on. *)
Theorem percent_spec (i : string) (loaded : Z) (total : option Z) (s : MultiFileUpload.State) :
  MultiFileUpload.percent_range loaded total ->
  let p := MultiFileUpload.percent loaded total in
  MultiFileUpload.files (MultiFileUpload.onUploadProgress i loaded total s)
  = MultiFileUpload.progressUpdate i p (MultiFileUpload.files s)
  /\ (forall f, In f (MultiFileUpload.files (MultiFileUpload.onUploadProgress i loaded total s)) ->
                MultiFileUpload.id f = i -> MultiFileUpload.progress f = p)
  /\ (forall t, total = Some t -> t <> 0 ->
        - t <= 2 * (loaded * 100 - t * p) < t
        /\ 0 <= p <= 100)
  /\ (total = None \/ total = Some 0 ->
        p = loaded * 100
        /\ (2 <= loaded -> 100 < p)).
Proof.
  intros Hrange p.
  split; [reflexivity |].
  split.
  { intros f Hf Hid. cbn in Hf. unfold MultiFileUpload.progressUpdate in Hf.
    apply in_map_iff in Hf. destruct Hf as [g [Hg _]].
    fold (MultiFileUpload.total_or_1 total) in Hg.
    fold (MultiFileUpload.percent loaded total) in Hg.
    destruct (String.eqb (MultiFileUpload.id g) i) eqn:E.
    - subst f. reflexivity.
    - subst f. apply String.eqb_neq in E. contradiction. }
  split.
  { intros t -> Ht. subst p.
    unfold MultiFileUpload.percent_range in Hrange.
    unfold MultiFileUpload.percent. cbn [MultiFileUpload.total_or_1].
    destruct (t =? 0) eqn:E; [apply Z.eqb_eq in E; contradiction |].
    destruct Hrange as [Hl _].
    split.
    - apply round_div_nearest. lia.
    - apply MultiFacts.round_div_range; lia. }
  intros Hcase.
  assert (p = loaded * 100) as Hp
    by (destruct Hcase as [-> | ->]; subst p; cbn; apply MultiFacts.round_div_1).
  split; [exact Hp | lia].
Qed.

Lemma percent_spec_witness :
  (- 2048 <= 2 * (1536 * 100 - 2048 * MultiFileUpload.percent 1536 (Some 2048)) < 2048
   /\ 0 <= MultiFileUpload.percent 1536 (Some 2048) <= 100)
  /\ MultiFileUpload.percent 1 (Some 3) = 33
  /\ MultiFileUpload.percent 2 (Some 3) = 67
  /\ MultiFileUpload.percent 1 (Some 8) = 13
  /\ MultiFileUpload.percent 7 None = 700.
Proof.
  assert (MultiFileUpload.percent_range 1536 (Some 2048)) as R1
    by (split; [split; discriminate | reflexivity]).
  assert (MultiFileUpload.percent_range 7 None) as R2
    by (split; [discriminate | reflexivity]).
  pose proof (percent_spec "photo.png" 1536 (Some 2048) MultiFileUpload.mount R1) as H.
  pose proof (percent_spec "photo.png" 7 None MultiFileUpload.mount R2) as H'.
  cbv zeta in H, H'.
  destruct H as [_ [_ [H2 _]]].
  destruct H' as [_ [_ [_ H3]]].
  split.
  { apply (H2 2048 eq_refl). discriminate. }
  split; [reflexivity |].
  split; [reflexivity |].
  split; [reflexivity |].
  apply H3. left. reflexivity.
Defined.

(** ** MultiFileUpload: the join over a batch *)

Module JoinFacts.
Import MultiFileUpload.

Lemma settle_at_nth_same (o : Settlement) (rs : list Request) :
  forall n r, nth_error rs n = Some r ->
    nth_error (settle_at n o rs) n = Some (mkRequest (batch r) (target r) (payload r) o).
Proof.
  induction rs as [| a rs IH]; intros [| n] r H; simpl in *; try discriminate.
  - inversion H. reflexivity.
  - apply IH. exact H.
Qed.

Lemma settle_at_nth_other (o : Settlement) (rs : list Request) :
  forall n m, n <> m -> nth_error (settle_at n o rs) m = nth_error rs m.
Proof.
  induction rs as [| a rs IH]; intros [| n] [| m] H; simpl; try reflexivity.
  - contradiction.
  - apply IH. intros E. apply H. f_equal. exact E.
Qed.

Lemma settle_at_In (o : Settlement) (rs : list Request) :
  forall n r', In r' (settle_at n o rs) ->
    In r' rs
    \/ exists r, nth_error rs n = Some r
                 /\ r' = mkRequest (batch r) (target r) (payload r) o.
Proof.
  induction rs as [| a rs IH]; intros [| n] r' H; simpl in *; try contradiction.
  - destruct H as [H | H]; [right; exists a; auto | left; auto].
  - destruct H as [H | H]; [left; auto |].
    destruct (IH n r' H) as [H' | H']; [left; auto | right; exact H'].
Qed.

Lemma pending_nth (n : nat) (s : State) :
  pending n s = true ->
  exists r, nth_error (requests s) n = Some r /\ settled r = false.
Proof.
  unfold pending. destruct (nth_error (requests s) n) as [r |]; [| discriminate].
  intros H. exists r. split; [reflexivity |]. apply negb_true_iff. exact H.
Qed.

Lemma join_requests (b : nat) (s : State) :
  requests (join b s) = requests s /\ batches (join b s) = batches s.
Proof. unfold join. destruct (batch_settled b (requests s)); split; reflexivity. Qed.

Lemma join_uploading (b : nat) (s : State) :
  uploading (join b s) = if batch_settled b (requests s) then false else uploading s.
Proof. unfold join. destruct (batch_settled b (requests s)); reflexivity. Qed.

Lemma handleFileSelect_frame (fs : option (list File)) (s : State) :
  requests (handleFileSelect fs s) = requests s
  /\ batches (handleFileSelect fs s) = batches s
  /\ uploading (handleFileSelect fs s) = uploading s.
Proof. destruct fs as [[| f fs] |]; repeat split; reflexivity. Qed.

Lemma picked_frame (fs : option (list File)) (s : State) :
  requests (picked fs s) = requests s
  /\ batches (picked fs s) = batches s
  /\ uploading (picked fs s) = uploading s.
Proof. destruct fs as [[| f fs] |]; repeat split; reflexivity. Qed.

(** States that agree on the requests, the counter and the flag agree on
    the invariant. *)
Lemma invariant_frame (s s' : State) :
  requests s' = requests s -> batches s' = batches s -> uploading s' = uploading s ->
  invariant s -> invariant s'.
Proof.
  unfold invariant. intros -> -> ->. tauto.
Qed.

Lemma invariant_handleUpload (s : State) : invariant s -> invariant (handleUpload s).
Proof.
  intros [Hb Hp]. unfold handleUpload.
  destruct ((List.length (files s) =? 0)%nat || uploading s) eqn:G; [split; assumption |].
  apply orb_false_iff in G. destruct G as [_ Hup].
  split; cbn; intros r Hr.
  - apply in_app_or in Hr. destruct Hr as [Hr | Hr].
    + specialize (Hb r Hr). lia.
    + apply in_map_iff in Hr. destruct Hr as [f [<- _]]. cbn. lia.
  - intros Hs. apply in_app_or in Hr. destruct Hr as [Hr | Hr].
    + destruct (Hp r Hr Hs) as [Hu _]. congruence.
    + apply in_map_iff in Hr. destruct Hr as [f [<- _]]. split; reflexivity.
Qed.

(** Settling a pending request and trying the join of its batch. *)
Lemma invariant_settle (s s' : State) (n : nat) (r : Request) (o : Settlement) :
  invariant s ->
  nth_error (requests s) n = Some r -> settled r = false -> o <> Pending ->
  requests s' = settle_at n o (requests s) ->
  batches s' = batches s -> uploading s' = uploading s ->
  invariant (join (batch r) s').
Proof.
  intros [Hb Hp] Hn Hr Ho Hreq Hbat Hup.
  destruct (Hp r (nth_error_In _ _ Hn) Hr) as [_ Hlast].
  destruct (join_requests (batch r) s') as [Jr Jb].
  unfold invariant. rewrite Jr, Jb, Hreq, Hbat.
  split; intros r' Hr'.
  - apply settle_at_In in Hr'. destruct Hr' as [Hr' | [r0 [H0 ->]]].
    + apply Hb, Hr'.
    + cbn. apply Hb. eapply nth_error_In. exact H0.
  - intros Hs. pose proof Hr' as Hin.
    apply settle_at_In in Hr'. destruct Hr' as [Hr' | [r0 [H0 ->]]].
    + destruct (Hp r' Hr' Hs) as [Hu Hl]. split; [| exact Hl].
      rewrite join_uploading, Hreq.
      destruct (batch_settled (batch r) (settle_at n o (requests s))) eqn:E.
      * unfold batch_settled in E. rewrite forallb_forall in E.
        specialize (E r' Hin). rewrite Hs, orb_false_r in E.
        apply negb_true_iff, Nat.eqb_neq in E. lia.
      * rewrite Hup. exact Hu.
    + exfalso. unfold settled in Hs. cbn in Hs. destruct o; congruence.
Qed.

Lemma invariant_step (s s' : State) (e : Event) :
  invariant s -> step s e = Some s' -> invariant s'.
Proof.
  intros Hinv. unfold step.
  destruct (enabled s e) eqn:En; [| discriminate].
  intros H. inversion H as [E]. clear H E.
  destruct e as [fs | | | i | n loaded total | n | n]; cbn [handle].
  - destruct (handleFileSelect_frame fs (picked fs s)) as [H1 [H2 H3]].
    destruct (picked_frame fs s) as [H4 [H5 H6]].
    apply (invariant_frame s); congruence.
  - apply invariant_handleUpload. exact Hinv.
  - apply (invariant_frame s); auto.
  - apply (invariant_frame s); auto.
  - destruct (nth_error (requests s) n); [| exact Hinv].
    apply (invariant_frame s); auto.
  - cbn in En. destruct (pending_nth n s En) as [r [Hn Hr]].
    unfold resolved. rewrite Hn.
    apply (invariant_settle s _ n r Resolved); auto. discriminate.
  - cbn in En. destruct (pending_nth n s En) as [r [Hn Hr]].
    unfold rejected. rewrite Hn.
    apply (invariant_settle s _ n r Rejected); auto. discriminate.
Qed.

Lemma reachable_invariant (s : State) : reachable s -> invariant s.
Proof.
  induction 1 as [| s e s' _ IH Hstep].
  - split; intros r [].
  - exact (invariant_step s s' e IH Hstep).
Qed.

Lemma reachable_pending_uploading (s : State) (n : nat) :
  reachable s -> pending n s = true -> uploading s = true.
Proof.
  intros Hs Hn. destruct (pending_nth n s Hn) as [r [Hr Hset]].
  destruct (reachable_invariant s Hs) as [_ Hp].
  exact (proj1 (Hp r (nth_error_In _ _ Hr) Hset)).
Qed.

Lemma resolved_requests (n : nat) (s : State) (r : Request) :
  nth_error (requests s) n = Some r ->
  requests (resolved n s) = settle_at n Resolved (requests s).
Proof.
  intros H. unfold resolved. rewrite H.
  rewrite (proj1 (join_requests _ _)). reflexivity.
Qed.

Lemma rejected_requests (n : nat) (s : State) (r : Request) :
  nth_error (requests s) n = Some r ->
  requests (rejected n s) = settle_at n Rejected (requests s).
Proof.
  intros H. unfold rejected. rewrite H.
  rewrite (proj1 (join_requests _ _)). reflexivity.
Qed.

Lemma resolved_uploading (n : nat) (s : State) (r : Request) :
  nth_error (requests s) n = Some r ->
  uploading (resolved n s) =
    if batch_settled (batch r) (settle_at n Resolved (requests s)) then false
    else uploading s.
Proof.
  intros H. unfold resolved. rewrite H, join_uploading. reflexivity.
Qed.

Lemma rejected_uploading (n : nat) (s : State) (r : Request) :
  nth_error (requests s) n = Some r ->
  uploading (rejected n s) =
    if batch_settled (batch r) (settle_at n Rejected (requests s)) then false
    else uploading s.
Proof.
  intros H. unfold rejected. rewrite H, join_uploading. reflexivity.
Qed.

(** A settlement leaves the other requests pending. *)
Lemma pending_after (s s' : State) (n m : nat) (o : Settlement) :
  requests s' = settle_at n o (requests s) -> n <> m ->
  pending m s' = pending m s.
Proof.
  intros H Hnm. unfold pending. rewrite H, settle_at_nth_other by exact Hnm.
  reflexivity.
Qed.

(** When the last pending request settles, its batch is settled. *)
Lemma last_settles (s : State) (n : nat) (r : Request) (o : Settlement) :
  nth_error (requests s) n = Some r -> o <> Pending ->
  (forall m, m <> n -> pending m s = false) ->
  batch_settled (batch r) (settle_at n o (requests s)) = true.
Proof.
  intros Hn Ho Hall. unfold batch_settled. apply forallb_forall.
  intros r' Hr'. apply In_nth_error in Hr'. destruct Hr' as [m Hm].
  destruct (Nat.eq_dec n m) as [<- | Hne].
  - rewrite (settle_at_nth_same o _ n r Hn) in Hm. inversion Hm.
    unfold settled. cbn. destruct o; [congruence | |]; apply orb_true_r.
  - rewrite settle_at_nth_other in Hm by exact Hne.
    specialize (Hall m (fun E => Hne (eq_sym E))).
    unfold pending in Hall. rewrite Hm in Hall.
    apply negb_false_iff in Hall. rewrite Hall. apply orb_true_r.
Qed.

End JoinFacts.

(** A batch of three: the first request resolves at once, the third
    rejects, the second resolves last.  The flag stays set until then. *)
Example mixed_batch :
  option_map MultiFileUpload.uploading
    (MultiFileUpload.run MultiFileUpload.mount
       [MultiFileUpload.Select (Some [report; photo; report']);
        MultiFileUpload.ClickUpload;
        MultiFileUpload.Resolve 0; MultiFileUpload.Reject 2]) = Some true
  /\ option_map MultiFileUpload.uploading
       (MultiFileUpload.run MultiFileUpload.mount
          [MultiFileUpload.Select (Some [report; photo; report']);
           MultiFileUpload.ClickUpload;
           MultiFileUpload.Resolve 0; MultiFileUpload.Reject 2;
           MultiFileUpload.Resolve 1]) = Some false.
Proof. split; vm_compute; reflexivity. Qed.

(** C5: in every state the component reaches, the uploading flag is unset
    only if every request issued so far has settled, so a batch's flag is
    set for as long as one of its requests is pending.  A request that
    resolves or rejects while another one is pending leaves the flag set;
    the settlement of the last pending request, resolved or rejected,
    unsets it. *)
Theorem uploading_reset_after_all_settled (s : MultiFileUpload.State) :
  MultiFileUpload.reachable s ->
  (MultiFileUpload.uploading s = false ->
     forall r, In r (MultiFileUpload.requests s) -> MultiFileUpload.settled r = true)
  /\ (forall n, MultiFileUpload.pending n s = true -> MultiFileUpload.uploading s = true)
  /\ (forall n m, n <> m ->
        MultiFileUpload.pending n s = true -> MultiFileUpload.pending m s = true ->
        MultiFileUpload.uploading (MultiFileUpload.rejected n s) = true
        /\ MultiFileUpload.uploading (MultiFileUpload.resolved n s) = true)
  /\ (forall n, MultiFileUpload.pending n s = true ->
        (forall m, m <> n -> MultiFileUpload.pending m s = false) ->
        MultiFileUpload.uploading (MultiFileUpload.rejected n s) = false
        /\ MultiFileUpload.uploading (MultiFileUpload.resolved n s) = false).
Proof.
  intros Hs.
  split; [| split; [| split]].
  - intros Hup r Hr.
    destruct (MultiFileUpload.settled r) eqn:E; [reflexivity |].
    destruct (JoinFacts.reachable_invariant s Hs) as [_ Hp].
    destruct (Hp r Hr E) as [Hu _]. congruence.
  - intros n. apply JoinFacts.reachable_pending_uploading. exact Hs.
  - intros n m Hnm Hn Hm.
    destruct (JoinFacts.pending_nth n s Hn) as [r [Hr _]].
    split.
    + apply (JoinFacts.reachable_pending_uploading _ m).
      * apply (MultiFileUpload.reachable_step s (MultiFileUpload.Reject n)); [exact Hs |].
        unfold MultiFileUpload.step. cbn [MultiFileUpload.enabled MultiFileUpload.handle].
        rewrite Hn. reflexivity.
      * rewrite (JoinFacts.pending_after s _ n m MultiFileUpload.Rejected);
          [exact Hm | exact (JoinFacts.rejected_requests n s r Hr) | exact Hnm].
    + apply (JoinFacts.reachable_pending_uploading _ m).
      * apply (MultiFileUpload.reachable_step s (MultiFileUpload.Resolve n)); [exact Hs |].
        unfold MultiFileUpload.step. cbn [MultiFileUpload.enabled MultiFileUpload.handle].
        rewrite Hn. reflexivity.
      * rewrite (JoinFacts.pending_after s _ n m MultiFileUpload.Resolved);
          [exact Hm | exact (JoinFacts.resolved_requests n s r Hr) | exact Hnm].
  - intros n Hn Hall.
    destruct (JoinFacts.pending_nth n s Hn) as [r [Hr _]].
    split.
    + rewrite (JoinFacts.rejected_uploading n s r Hr).
      rewrite (JoinFacts.last_settles s n r MultiFileUpload.Rejected Hr); [reflexivity | discriminate | exact Hall].
    + rewrite (JoinFacts.resolved_uploading n s r Hr).
      rewrite (JoinFacts.last_settles s n r MultiFileUpload.Resolved Hr); [reflexivity | discriminate | exact Hall].
Qed.

Lemma uploading_reset_after_all_settled_witness :
  let s := MultiFileUpload.handle MultiFileUpload.ClickUpload
             (MultiFileUpload.handle (MultiFileUpload.Select (Some [report; photo]))
                MultiFileUpload.mount) in
  MultiFileUpload.reachable s
  /\ MultiFileUpload.uploading s = true
  /\ MultiFileUpload.uploading (MultiFileUpload.rejected 0 s) = true
  /\ MultiFileUpload.uploading (MultiFileUpload.resolved 1 (MultiFileUpload.rejected 0 s)) = false.
Proof.
  intros s.
  assert (MultiFileUpload.reachable s) as Hs.
  { apply (MultiFileUpload.reachable_step
             (MultiFileUpload.handle (MultiFileUpload.Select (Some [report; photo]))
                MultiFileUpload.mount)
             MultiFileUpload.ClickUpload); [| reflexivity].
    apply (MultiFileUpload.reachable_step MultiFileUpload.mount
             (MultiFileUpload.Select (Some [report; photo]))); [| reflexivity].
    apply MultiFileUpload.reachable_mount. }
  split; [exact Hs |].
  destruct (uploading_reset_after_all_settled s Hs) as [_ [H2 [H3 _]]].
  split; [apply (H2 0%nat); reflexivity |].
  split; [apply (H3 0%nat 1%nat); [discriminate | reflexivity | reflexivity] |].
  reflexivity.
Defined.

(** ** FileUploader *)

Module UploaderFacts.
Import FileUploader.

Lemma status_invariant_step (s s' : State) (e : Event) :
  invariant s -> step s e = Some s' -> invariant s'.
Proof.
  unfold invariant, step. intros Hinv.
  destruct (enabled s e) eqn:En; [| discriminate].
  intros H. inversion H as [E]. clear H E.
  destruct e as [fs | | |]; cbn in *.
  - destruct fs as [fs |]; exact Hinv.
  - unfold uploadButton_rendered in En. unfold handleFileUpload.
    destruct (file s); [| discriminate]. cbn.
    destruct (status s); cbn in *; try discriminate;
      destruct Hinv as [[Hi Hu] | [Hi Hu]]; try discriminate;
      right; rewrite Hi; split; reflexivity.
  - destruct Hinv as [[Hi Hu] | [Hi Hu]]; rewrite Hi in *; [discriminate |].
    left. split; reflexivity.
  - destruct Hinv as [[Hi Hu] | [Hi Hu]]; rewrite Hi in *; [discriminate |].
    left. split; reflexivity.
Qed.

Lemma reachable_status_invariant (s : State) : reachable s -> invariant s.
Proof.
  induction 1 as [| s e s' _ IH Hstep].
  - left. split; reflexivity.
  - exact (status_invariant_step s s' e IH Hstep).
Qed.

Lemma upload_then_settle (s : State) (f : File) :
  file s = Some f -> is_uploading (status s) = false ->
  statuses s [ClickUpload; Resolve] = Some [status s; uploading; success]
  /\ statuses s [ClickUpload; Reject] = Some [status s; uploading; error].
Proof.
  intros Hf Hu. unfold statuses, states, step.
  cbn [enabled handle]. unfold uploadButton_rendered, handleFileUpload.
  rewrite Hf, Hu. cbn. split; reflexivity.
Qed.

End UploaderFacts.

(** C6 (as stated): the upload button is rendered again after a failure,
    and a second upload takes the status from error to uploading, a change
    that is not in the specification's list; the status sequence of that
    run starts at error, not at idle. *)
Lemma status_retry_counterexample :
  exists s,
    FileUploader.reachable s
    /\ FileUploader.file s = Some photo
    /\ FileUploader.status s = FileUploader.error
    /\ FileUploader.statuses s [FileUploader.ClickUpload; FileUploader.Resolve]
       = Some [FileUploader.error; FileUploader.uploading; FileUploader.success]
    /\ FileUploader.listed FileUploader.error FileUploader.uploading = false.
Proof.
  exists (FileUploader.mkState (Some photo) FileUploader.error 0).
  split.
  { apply (FileUploader.reachable_step
             (FileUploader.mkState (Some photo) FileUploader.uploading 1)
             FileUploader.Reject); [| reflexivity].
    apply (FileUploader.reachable_step
             (FileUploader.mkState (Some photo) FileUploader.idle 0)
             FileUploader.ClickUpload); [| reflexivity].
    apply (FileUploader.reachable_step FileUploader.mount
             (FileUploader.FileChange (Some [photo]))); [| reflexivity].
    apply FileUploader.reachable_mount. }
  repeat split; reflexivity.
Qed.

(** C6 (amended): with a file selected and no upload running, an upload
    takes the status from where it is (idle after a fresh mount, success or
    error after an earlier upload) to uploading, and then to success when
    the request resolves and to error when it rejects; from idle the
    sequences are idle, uploading, success and idle, uploading, error.  In
    every state the component reaches, an event changes the status only
    along idle/success/error -> uploading, uploading -> success or
    uploading -> error, and never to idle. *)
Theorem status_transitions (s : FileUploader.State) :
  FileUploader.reachable s ->
  (forall e s', FileUploader.step s e = Some s' ->
     FileUploader.same (FileUploader.status s) (FileUploader.status s') = true
     \/ FileUploader.transition (FileUploader.status s) (FileUploader.status s') = true)
  /\ (forall e s', FileUploader.step s e = Some s' ->
        FileUploader.status s' = FileUploader.idle ->
        FileUploader.status s = FileUploader.idle)
  /\ (forall f, FileUploader.file s = Some f ->
        FileUploader.status s <> FileUploader.uploading ->
        FileUploader.statuses s [FileUploader.ClickUpload; FileUploader.Resolve]
        = Some [FileUploader.status s; FileUploader.uploading; FileUploader.success]
        /\ FileUploader.statuses s [FileUploader.ClickUpload; FileUploader.Reject]
           = Some [FileUploader.status s; FileUploader.uploading; FileUploader.error])
  /\ (forall f, FileUploader.file s = Some f ->
        FileUploader.status s = FileUploader.idle ->
        FileUploader.statuses s [FileUploader.ClickUpload; FileUploader.Resolve]
        = Some [FileUploader.idle; FileUploader.uploading; FileUploader.success]
        /\ FileUploader.statuses s [FileUploader.ClickUpload; FileUploader.Reject]
           = Some [FileUploader.idle; FileUploader.uploading; FileUploader.error]).
Proof.
  intros Hs. pose proof (UploaderFacts.reachable_status_invariant s Hs) as Hinv.
  assert (forall e s', FileUploader.step s e = Some s' ->
            (FileUploader.same (FileUploader.status s) (FileUploader.status s') = true
             \/ FileUploader.transition (FileUploader.status s) (FileUploader.status s') = true)
            /\ (FileUploader.status s' = FileUploader.idle ->
                FileUploader.status s = FileUploader.idle)) as Hstep.
  { intros e s'. unfold FileUploader.step.
    destruct (FileUploader.enabled s e) eqn:En; [| discriminate].
    intros H. inversion H as [E]. clear H E.
    destruct e as [fs | | |]; cbn in *.
    - destruct fs as [fs |]; cbn; (split; [left | tauto]);
        destruct (FileUploader.status s); reflexivity.
    - unfold FileUploader.uploadButton_rendered in En.
      unfold FileUploader.handleFileUpload.
      destruct (FileUploader.file s); [| discriminate]. cbn.
      destruct (FileUploader.status s); cbn in *; try discriminate;
        (split; [right; reflexivity | discriminate]).
    - destruct Hinv as [[Hi Hu] | [Hi Hu]]; rewrite Hi in En; [discriminate |].
      rewrite Hu. split; [right; reflexivity | discriminate].
    - destruct Hinv as [[Hi Hu] | [Hi Hu]]; rewrite Hi in En; [discriminate |].
      rewrite Hu. split; [right; reflexivity | discriminate]. }
  split; [intros e s' H; exact (proj1 (Hstep e s' H)) |].
  split; [intros e s' H; exact (proj2 (Hstep e s' H)) |].
  split.
  - intros f Hf Hu. apply (UploaderFacts.upload_then_settle s f Hf).
    destruct (FileUploader.status s); try reflexivity. contradiction.
  - intros f Hf Hi.
    destruct (UploaderFacts.upload_then_settle s f Hf) as [H1 H2];
      [rewrite Hi; reflexivity |].
    rewrite Hi in H1, H2. split; assumption.
Qed.

Lemma status_transitions_witness :
  let s := FileUploader.handle (FileUploader.FileChange (Some [photo])) FileUploader.mount in
  FileUploader.reachable s
  /\ FileUploader.statuses s [FileUploader.ClickUpload; FileUploader.Resolve]
     = Some [FileUploader.idle; FileUploader.uploading; FileUploader.success]
  /\ FileUploader.statuses s [FileUploader.ClickUpload; FileUploader.Reject]
     = Some [FileUploader.idle; FileUploader.uploading; FileUploader.error].
Proof.
  intros s.
  assert (FileUploader.reachable s) as Hs.
  { apply (FileUploader.reachable_step FileUploader.mount
             (FileUploader.FileChange (Some [photo]))); [| reflexivity].
    apply FileUploader.reachable_mount. }
  split; [exact Hs |].
  destruct (status_transitions s Hs) as [_ [_ [_ H]]].
  apply (H photo); reflexivity.
Defined.

(** * Further properties *)

(** ** formatFileSize and the progress percentage *)

Module NumberFacts.

Lemma k_pow_pos (i : Z) : 0 <= i -> 0 < k ^ i.
Proof. intros Hi. apply Z.pow_pos_nonneg; [reflexivity | exact Hi]. Qed.

Lemma sizes_index (i : nat) (u : string) : nth_error sizes i = Some u -> (i < 4)%nat.
Proof.
  intros H. change 4%nat with (List.length sizes).
  apply nth_error_Some. rewrite H. discriminate.
Qed.

Lemma unit_index_multiple (m i : Z) :
  1 <= m < 1024 -> 0 <= i -> unit_index (m * k ^ i) = i.
Proof.
  intros Hm Hi. unfold unit_index.
  rewrite k_pow by exact Hi.
  rewrite Z.log2_mul_pow2 by lia.
  assert (0 <= Z.log2 m < 10) as Hl.
  { split; [apply Z.log2_nonneg |].
    apply Z.log2_lt_pow2; [lia |]. change (2 ^ 10) with 1024. lia. }
  replace (10 * i + Z.log2 m) with (Z.log2 m + i * 10) by lia.
  rewrite Z.div_add by lia. rewrite Z.div_small by exact Hl. reflexivity.
Qed.

Lemma toFixed1_multiple (m b : Z) : 0 < b -> Js.toFixed1 (m * b) b = 10 * m.
Proof.
  intros Hb. unfold Js.toFixed1, Js.round_div.
  replace (2 * (10 * (m * b)) + b) with ((20 * m + 1) * b) by lia.
  rewrite Z.div_mul_cancel_r by lia.
  replace (20 * m + 1) with (1 + (10 * m) * 2) by lia.
  rewrite Z.div_add by lia. reflexivity.
Qed.

Lemma parseFloat_text_whole (m : Z) : Js.parseFloat_text (10 * m) = Js.toString m.
Proof.
  unfold Js.parseFloat_text.
  replace (10 * m) with (m * 10) by lia.
  rewrite Z.mod_mul by lia. rewrite Z.div_mul by lia. reflexivity.
Qed.

Lemma total_or_1_pos (total : option Z) :
  (forall t, total = Some t -> 0 <= t) -> 0 < MultiFileUpload.total_or_1 total.
Proof.
  intros H. destruct total as [t |]; cbn; [| lia].
  specialize (H t eq_refl).
  destruct (t =? 0) eqn:E; [lia | apply Z.eqb_neq in E; lia].
Qed.

End NumberFacts.

(** X1: a byte count that is a whole number [m] (from 1 to 1023) of
    units is written as that number, without decimals, and its unit. *)
Theorem formatFileSize_whole_units (i : nat) (u : string) (m : Z) :
  nth_error sizes i = Some u -> 1 <= m < 1024 ->
  formatFileSize (m * k ^ Z.of_nat i) = Js.toString m ++ " " ++ u.
Proof.
  intros Hu Hm.
  pose proof (NumberFacts.k_pow_pos (Z.of_nat i) ltac:(lia)) as Hk.
  rewrite formatFileSize_positive by nia.
  rewrite NumberFacts.unit_index_multiple by lia.
  rewrite NumberFacts.toFixed1_multiple by exact Hk.
  rewrite NumberFacts.parseFloat_text_whole.
  unfold sizes_at. destruct (Z.of_nat i <? 0) eqn:E; [apply Z.ltb_lt in E; lia |].
  rewrite Nat2Z.id, Hu. reflexivity.
Qed.

Lemma formatFileSize_whole_units_witness :
  formatFileSize (512 * k ^ Z.of_nat 3) = "512 GB".
Proof.
  rewrite (formatFileSize_whole_units 3 "GB" 512);
    [vm_compute; reflexivity | reflexivity | split; [discriminate | reflexivity]].
Defined.

(** X2: for every positive byte count below 1024^4 the number written
    is between 1 and 1024, both included: its tenths lie between 10 and
    10240.  The upper end is reached just below a power of 1024, where the
    quotient rounds up to 1024.0. *)
Theorem formatFileSize_number_range (bytes : Z) :
  0 < bytes < k ^ 4 ->
  10 <= Js.toFixed1 bytes (k ^ unit_index bytes) <= 10240
  /\ exists u,
       In u sizes
       /\ formatFileSize bytes
          = Js.parseFloat_text (Js.toFixed1 bytes (k ^ unit_index bytes)) ++ " " ++ u.
Proof.
  intros [Hpos Hlt]. split.
  - pose proof (unit_index_nonneg bytes) as Hi.
    destruct (unit_index_bounds bytes Hpos) as [Hlo Hhi].
    pose proof (NumberFacts.k_pow_pos _ Hi) as Hk.
    rewrite Z.pow_add_r in Hhi by lia. change (k ^ 1) with 1024 in Hhi.
    unfold Js.toFixed1, Js.round_div.
    generalize dependent (k ^ unit_index bytes). intros b Hlo Hk Hhi.
    split.
    + apply Z.div_le_lower_bound; lia.
    + apply Z.lt_succ_r. apply Z.div_lt_upper_bound; lia.
  - destruct (sizes_at_some (unit_index bytes)) as [u [Hu Hin]].
    { split; [apply unit_index_nonneg | apply unit_index_small; assumption]. }
    exists u. split; [exact Hin |].
    rewrite (formatFileSize_positive bytes Hpos), Hu. reflexivity.
Qed.

Lemma formatFileSize_number_range_witness :
  Js.toFixed1 1048575 (k ^ unit_index 1048575) = 10240
  /\ 10 <= Js.toFixed1 1048575 (k ^ unit_index 1048575) <= 10240
  /\ formatFileSize 1048575 = "1024 KB".
Proof.
  split; [vm_compute; reflexivity |].
  destruct (formatFileSize_number_range 1048575) as [H1 _].
  { split; reflexivity. }
  split; [exact H1 |].
  vm_compute. reflexivity.
Defined.

(** X3: with a total that is absent or not negative, the stored
    percentage does not decrease when more bytes are loaded; it is 0 with
    nothing loaded and 100 when the loaded count equals a positive total. *)
Theorem percent_monotone (total : option Z) (loaded1 loaded2 : Z) :
  (forall t, total = Some t -> 0 <= t) ->
  loaded1 <= loaded2 ->
  MultiFileUpload.percent loaded1 total <= MultiFileUpload.percent loaded2 total
  /\ MultiFileUpload.percent 0 total = 0
  /\ (forall t, total = Some t -> 0 < t -> MultiFileUpload.percent t total = 100).
Proof.
  intros Ht Hl.
  pose proof (NumberFacts.total_or_1_pos total Ht) as Hb.
  unfold MultiFileUpload.percent, Js.round_div.
  split; [apply Z.div_le_mono; lia |].
  split; [apply Z.div_small; lia |].
  intros t -> Hpos. cbn [MultiFileUpload.total_or_1].
  destruct (t =? 0) eqn:E; [apply Z.eqb_eq in E; lia |].
  replace (2 * (t * 100) + t) with (t + 100 * (2 * t)) by lia.
  rewrite Z.div_add by lia. rewrite Z.div_small by lia. reflexivity.
Qed.

Lemma percent_monotone_witness :
  MultiFileUpload.percent 512 (Some 2048) <= MultiFileUpload.percent 1536 (Some 2048)
  /\ MultiFileUpload.percent 0 (Some 2048) = 0
  /\ MultiFileUpload.percent 2048 (Some 2048) = 100.
Proof.
  destruct (percent_monotone (Some 2048) 512 1536) as [H1 [H2 H3]].
  - intros t H. inversion H. discriminate.
  - discriminate.
  - split; [exact H1 |]. split; [exact H2 |]. apply H3; reflexivity.
Defined.

(** ** MultiFileUpload: updates of the collection *)

Module CollectionFacts.
Import MultiFileUpload.

Lemma filter_twice (A : Type) (p q : A -> bool) (l : list A) :
  filter p (filter q l) = filter (fun x => q x && p x) l.
Proof.
  induction l as [| a l IH]; cbn; [reflexivity |].
  destruct (q a); cbn; [destruct (p a) |]; rewrite IH; reflexivity.
Qed.

Lemma setFiles_twice (f g : list FileWithProgress -> list FileWithProgress) (s : State) :
  setFiles f (setFiles g s) = setFiles (fun l => f (g l)) s.
Proof. reflexivity. Qed.

Lemma setFiles_ext (f g : list FileWithProgress -> list FileWithProgress) (s : State) :
  f (files s) = g (files s) -> setFiles f s = setFiles g s.
Proof. intros H. unfold setFiles. rewrite H. reflexivity. Qed.

Lemma withProgress_id (p : Z) (f : FileWithProgress) : id (withProgress p f) = id f.
Proof. reflexivity. Qed.

Lemma withUploaded_id (f : FileWithProgress) : id (withUploaded f) = id f.
Proof. reflexivity. Qed.

Lemma progressUpdate_ids (i : string) (p : Z) (l : list FileWithProgress) :
  map id (progressUpdate i p l) = map id l
  /\ map file (progressUpdate i p l) = map file l
  /\ map uploaded (progressUpdate i p l) = map uploaded l.
Proof.
  unfold progressUpdate. rewrite !map_map.
  repeat split; apply map_ext; intros f;
    destruct (String.eqb (id f) i); reflexivity.
Qed.

Lemma uploadedUpdate_ids (i : string) (l : list FileWithProgress) :
  map id (uploadedUpdate i l) = map id l
  /\ map file (uploadedUpdate i l) = map file l
  /\ map progress (uploadedUpdate i l) = map progress l.
Proof.
  unfold uploadedUpdate. rewrite !map_map.
  repeat split; apply map_ext; intros f;
    destruct (String.eqb (id f) i); reflexivity.
Qed.

End CollectionFacts.

(** X4: of two progress updates for one identifier the later one
    stands, and progress updates for two different identifiers can be
    applied in either order. *)
Theorem progressUpdate_compose
  (i j : string) (p q : Z) (l : list MultiFileUpload.FileWithProgress) :
  MultiFileUpload.progressUpdate i q (MultiFileUpload.progressUpdate i p l)
  = MultiFileUpload.progressUpdate i q l
  /\ (i <> j ->
      MultiFileUpload.progressUpdate i p (MultiFileUpload.progressUpdate j q l)
      = MultiFileUpload.progressUpdate j q (MultiFileUpload.progressUpdate i p l)).
Proof.
  unfold MultiFileUpload.progressUpdate. rewrite !map_map. split.
  - apply map_ext. intros f.
    destruct (String.eqb (MultiFileUpload.id f) i) eqn:E.
    + rewrite CollectionFacts.withProgress_id, E. reflexivity.
    + rewrite E. reflexivity.
  - intros Hij. apply map_ext. intros f.
    destruct (String.eqb (MultiFileUpload.id f) i) eqn:Ei;
      destruct (String.eqb (MultiFileUpload.id f) j) eqn:Ej;
      rewrite ?CollectionFacts.withProgress_id, ?Ei, ?Ej; try reflexivity.
    apply String.eqb_eq in Ei, Ej. congruence.
Qed.

Lemma progressUpdate_compose_witness :
  MultiFileUpload.progressUpdate "report.pdf" 10
    (MultiFileUpload.progressUpdate "photo.png" 90
       [MultiFileUpload.newEntry report; MultiFileUpload.newEntry photo])
  = MultiFileUpload.progressUpdate "photo.png" 90
      (MultiFileUpload.progressUpdate "report.pdf" 10
         [MultiFileUpload.newEntry report; MultiFileUpload.newEntry photo]).
Proof.
  apply (proj2 (progressUpdate_compose "report.pdf" "photo.png" 10 90
                  [MultiFileUpload.newEntry report; MultiFileUpload.newEntry photo])).
  discriminate.
Defined.

(** X5: marking entries as uploaded and updating a progress commute,
    whatever the two identifiers are, so a late progress event does not undo
    a completion; marking twice is marking once. *)
Theorem uploadedUpdate_commutes
  (i j : string) (p : Z) (l : list MultiFileUpload.FileWithProgress) :
  MultiFileUpload.uploadedUpdate i (MultiFileUpload.progressUpdate j p l)
  = MultiFileUpload.progressUpdate j p (MultiFileUpload.uploadedUpdate i l)
  /\ MultiFileUpload.uploadedUpdate i (MultiFileUpload.uploadedUpdate i l)
     = MultiFileUpload.uploadedUpdate i l.
Proof.
  unfold MultiFileUpload.uploadedUpdate, MultiFileUpload.progressUpdate.
  rewrite !map_map. split; apply map_ext; intros f.
  - destruct (String.eqb (MultiFileUpload.id f) i) eqn:Ei;
      destruct (String.eqb (MultiFileUpload.id f) j) eqn:Ej;
      rewrite ?CollectionFacts.withProgress_id, ?CollectionFacts.withUploaded_id,
              ?Ei, ?Ej; reflexivity.
  - destruct (String.eqb (MultiFileUpload.id f) i) eqn:Ei;
      rewrite ?CollectionFacts.withUploaded_id, ?Ei; reflexivity.
Qed.

(** X6: removing an entry from the middle of the collection, when no
    other entry has its identifier, leaves the entries before and after it
    in their order. *)
Theorem removeFile_mid_collection
  (i : string) (before after : list MultiFileUpload.FileWithProgress)
  (e : MultiFileUpload.FileWithProgress) (s : MultiFileUpload.State) :
  MultiFileUpload.files s = (before ++ e :: after)%list ->
  MultiFileUpload.id e = i ->
  (forall f, In f (before ++ after)%list -> MultiFileUpload.id f <> i) ->
  MultiFileUpload.files (MultiFileUpload.removeFile i s) = (before ++ after)%list.
Proof.
  intros Hs He Hothers.
  rewrite MultiFacts.removeFile_files, Hs, filter_app. cbn [filter].
  rewrite He, String.eqb_refl. cbn [negb].
  rewrite <- filter_app. apply MultiFacts.filter_id.
  intros f Hf. apply negb_true_iff, String.eqb_neq, Hothers, Hf.
Qed.

Lemma removeFile_mid_collection_witness :
  MultiFileUpload.files
    (MultiFileUpload.removeFile "photo.png"
       (MultiFileUpload.handleFileSelect (Some [report; photo; report'])
          MultiFileUpload.mount))
  = [MultiFileUpload.newEntry report; MultiFileUpload.newEntry report'].
Proof.
  apply (removeFile_mid_collection "photo.png"
           [MultiFileUpload.newEntry report] [MultiFileUpload.newEntry report']
           (MultiFileUpload.newEntry photo)).
  - reflexivity.
  - reflexivity.
  - intros f [<- | [<- | []]]; discriminate.
Defined.

(** X7: removing an identifier twice is removing it once, and two
    removals can be made in either order. *)
Theorem removeFile_idempotent_commutes (i j : string) (s : MultiFileUpload.State) :
  MultiFileUpload.removeFile i (MultiFileUpload.removeFile i s)
  = MultiFileUpload.removeFile i s
  /\ MultiFileUpload.removeFile i (MultiFileUpload.removeFile j s)
     = MultiFileUpload.removeFile j (MultiFileUpload.removeFile i s).
Proof.
  unfold MultiFileUpload.removeFile. rewrite !CollectionFacts.setFiles_twice.
  split; apply CollectionFacts.setFiles_ext; rewrite !CollectionFacts.filter_twice;
    apply filter_ext; intros f.
  - destruct (negb (String.eqb (MultiFileUpload.id f) i)); reflexivity.
  - apply andb_comm.
Qed.

(** X8: selecting one file whose name no entry carries and then removing
    that name gives back the collection there was. *)
Theorem select_then_remove (f : File) (s : MultiFileUpload.State) :
  (forall g, In g (MultiFileUpload.files s) -> MultiFileUpload.id g <> name f) ->
  MultiFileUpload.files
    (MultiFileUpload.removeFile (name f) (MultiFileUpload.handleFileSelect (Some [f]) s))
  = MultiFileUpload.files s.
Proof.
  intros Hfresh.
  rewrite MultiFacts.removeFile_files, MultiFacts.handleFileSelect_files, filter_app.
  cbn. rewrite String.eqb_refl. cbn. rewrite app_nil_r.
  apply MultiFacts.filter_id.
  intros g Hg. apply negb_true_iff, String.eqb_neq, Hfresh, Hg.
Qed.

Lemma select_then_remove_witness :
  let s := MultiFileUpload.handleFileSelect (Some [report]) MultiFileUpload.mount in
  MultiFileUpload.files
    (MultiFileUpload.removeFile "photo.png" (MultiFileUpload.handleFileSelect (Some [photo]) s))
  = MultiFileUpload.files s.
Proof.
  intros s. apply (select_then_remove photo s).
  intros g [<- | []]. discriminate.
Defined.

(** ** MultiFileUpload: what an event does to each part of the state *)

Module StepFacts.
Import MultiFileUpload.
Import MultiView.

Lemma join_frame (b : nat) (s : State) :
  files (join b s) = files s
  /\ inputValue (join b s) = inputValue s
  /\ console (join b s) = console s.
Proof. unfold join. destruct (batch_settled b (requests s)); repeat split; reflexivity. Qed.

Lemma files_after (e : Event) (s : State) :
  files (handle e s) =
  match e with
  | Select fs => (files s ++ map newEntry (selection fs))%list
  | ClickUpload => files s
  | ClickClear => []
  | ClickRemove i => filter (fun f => negb (String.eqb (id f) i)) (files s)
  | Progress n loaded total =>
      match nth_error (requests s) n with
      | Some r => progressUpdate (target r) (percent loaded total) (files s)
      | None => files s
      end
  | Resolve n =>
      match nth_error (requests s) n with
      | Some r => uploadedUpdate (target r) (files s)
      | None => files s
      end
  | Reject n => files s
  end.
Proof.
  destruct e as [fs | | | i | n loaded total | n | n]; cbn [handle].
  - destruct fs as [[| f fs] |]; cbn; rewrite ?app_nil_r; reflexivity.
  - unfold handleUpload.
    destruct ((List.length (files s) =? 0)%nat || uploading s); reflexivity.
  - reflexivity.
  - reflexivity.
  - destruct (nth_error (requests s) n); reflexivity.
  - unfold resolved. destruct (nth_error (requests s) n); [| reflexivity].
    rewrite (proj1 (join_frame _ _)). reflexivity.
  - unfold rejected. destruct (nth_error (requests s) n); [| reflexivity].
    rewrite (proj1 (join_frame _ _)). reflexivity.
Qed.

Lemma settle_at_beyond (o : Settlement) (rs : list Request) :
  forall n, nth_error rs n = None -> settle_at n o rs = rs.
Proof.
  induction rs as [| a rs IH]; intros [| n] H; cbn in *; try reflexivity.
  - discriminate.
  - rewrite IH by exact H. reflexivity.
Qed.

Lemma requests_after (e : Event) (s : State) :
  requests (handle e s) =
  match e with
  | ClickUpload =>
      if (List.length (files s) =? 0)%nat || uploading s then requests s
      else (requests s ++ map (post (batches s)) (files s))%list
  | Resolve n => settle_at n Resolved (requests s)
  | Reject n => settle_at n Rejected (requests s)
  | _ => requests s
  end.
Proof.
  destruct e as [fs | | | i | n loaded total | n | n]; cbn [handle].
  - destruct fs as [[| f fs] |]; reflexivity.
  - unfold handleUpload.
    destruct ((List.length (files s) =? 0)%nat || uploading s); reflexivity.
  - reflexivity.
  - reflexivity.
  - destruct (nth_error (requests s) n); reflexivity.
  - destruct (nth_error (requests s) n) as [r |] eqn:E.
    + exact (JoinFacts.resolved_requests n s r E).
    + unfold resolved. rewrite E, settle_at_beyond by exact E. reflexivity.
  - destruct (nth_error (requests s) n) as [r |] eqn:E.
    + exact (JoinFacts.rejected_requests n s r E).
    + unfold rejected. rewrite E, settle_at_beyond by exact E. reflexivity.
Qed.

Lemma uploading_after (e : Event) (s : State) :
  uploading (handle e s) =
  match e with
  | ClickUpload =>
      if (List.length (files s) =? 0)%nat || uploading s then uploading s else true
  | Resolve n =>
      match nth_error (requests s) n with
      | Some r =>
          if batch_settled (batch r) (settle_at n Resolved (requests s)) then false
          else uploading s
      | None => uploading s
      end
  | Reject n =>
      match nth_error (requests s) n with
      | Some r =>
          if batch_settled (batch r) (settle_at n Rejected (requests s)) then false
          else uploading s
      | None => uploading s
      end
  | _ => uploading s
  end.
Proof.
  destruct e as [fs | | | i | n loaded total | n | n]; cbn [handle].
  - destruct fs as [[| f fs] |]; reflexivity.
  - unfold handleUpload.
    destruct ((List.length (files s) =? 0)%nat || uploading s); reflexivity.
  - reflexivity.
  - reflexivity.
  - destruct (nth_error (requests s) n); reflexivity.
  - destruct (nth_error (requests s) n) as [r |] eqn:E.
    + exact (JoinFacts.resolved_uploading n s r E).
    + unfold resolved. rewrite E. reflexivity.
  - destruct (nth_error (requests s) n) as [r |] eqn:E.
    + exact (JoinFacts.rejected_uploading n s r E).
    + unfold rejected. rewrite E. reflexivity.
Qed.

Lemma step_handle (s s' : State) (e : Event) :
  step s e = Some s' -> enabled s e = true /\ s' = handle e s.
Proof.
  unfold step. destruct (enabled s e); [| discriminate].
  intros H. inversion H. split; reflexivity.
Qed.

Lemma forallb_false (A : Type) (p : A -> bool) (l : list A) :
  forallb p l = false -> exists x, In x l /\ p x = false.
Proof.
  induction l as [| a l IH]; cbn; [discriminate |].
  destruct (p a) eqn:E; cbn.
  - intros H. destruct (IH H) as [x [Hx Hp]]. exists x. split; [right |]; assumption.
  - intros _. exists a. split; [left; reflexivity | exact E].
Qed.

Lemma unsettled_pending (s : State) (r : Request) :
  In r (requests s) -> settled r = false -> exists n, pending n s = true.
Proof.
  intros Hr Hs. apply In_nth_error in Hr. destruct Hr as [n Hn].
  exists n. unfold pending. rewrite Hn, Hs. reflexivity.
Qed.

Lemma waiting_settle (s : State) (n : nat) (r : Request) (o : Settlement) (u : bool) :
  u = (if batch_settled (batch r) (settle_at n o (requests s)) then false else uploading s) ->
  u = true ->
  exists r', In r' (settle_at n o (requests s)) /\ settled r' = false.
Proof.
  intros -> Hu.
  destruct (batch_settled (batch r) (settle_at n o (requests s))) eqn:E; [discriminate |].
  unfold batch_settled in E. apply forallb_false in E.
  destruct E as [r' [Hin Hp]]. apply orb_false_iff in Hp.
  exists r'. split; [exact Hin | exact (proj2 Hp)].
Qed.

Lemma waiting_step (s s' : State) (e : Event) :
  waiting s -> step s e = Some s' -> waiting s'.
Proof.
  intros Hw Hstep. apply step_handle in Hstep. destruct Hstep as [En ->].
  unfold waiting. rewrite uploading_after, requests_after.
  destruct e as [fs | | | i | n loaded total | n | n]; try exact Hw.
  - destruct ((List.length (files s) =? 0)%nat || uploading s) eqn:G; [exact Hw |].
    intros _. apply orb_false_iff in G. destruct G as [Hlen _].
    destruct (files s) as [| f l]; [discriminate |].
    exists (post (batches s) f). split; [| reflexivity].
    apply in_or_app. right. left. reflexivity.
  - cbn in En. destruct (JoinFacts.pending_nth n s En) as [r [Hr _]]. rewrite Hr.
    apply (waiting_settle s n r Resolved). reflexivity.
  - cbn in En. destruct (JoinFacts.pending_nth n s En) as [r [Hr _]]. rewrite Hr.
    apply (waiting_settle s n r Rejected). reflexivity.
Qed.

Lemma reachable_waiting (s : State) : reachable s -> waiting s.
Proof.
  induction 1 as [| s e s' _ IH Hstep].
  - intros H. discriminate.
  - exact (waiting_step s s' e IH Hstep).
Qed.

End StepFacts.

(** X9: in every state the component reaches, the uploading flag is set
    exactly when some request has not settled yet. *)
Theorem uploading_iff_pending (s : MultiFileUpload.State) :
  MultiFileUpload.reachable s ->
  (MultiFileUpload.uploading s = true <-> exists n, MultiFileUpload.pending n s = true).
Proof.
  intros Hs. split.
  - intros Hu. destruct (StepFacts.reachable_waiting s Hs Hu) as [r [Hr Hset]].
    exact (StepFacts.unsettled_pending s r Hr Hset).
  - intros [n Hn]. exact (JoinFacts.reachable_pending_uploading s n Hs Hn).
Qed.

Lemma uploading_iff_pending_witness :
  let s := MultiFileUpload.handle (MultiFileUpload.Reject 0)
             (MultiFileUpload.handle MultiFileUpload.ClickUpload
                (MultiFileUpload.handle (MultiFileUpload.Select (Some [report; photo]))
                   MultiFileUpload.mount)) in
  MultiFileUpload.reachable s /\ MultiFileUpload.uploading s = true.
Proof.
  intros s.
  assert (MultiFileUpload.reachable s) as Hs.
  { apply (MultiFileUpload.reachable_step
             (MultiFileUpload.handle MultiFileUpload.ClickUpload
                (MultiFileUpload.handle (MultiFileUpload.Select (Some [report; photo]))
                   MultiFileUpload.mount))
             (MultiFileUpload.Reject 0)); [| reflexivity].
    apply (MultiFileUpload.reachable_step
             (MultiFileUpload.handle (MultiFileUpload.Select (Some [report; photo]))
                MultiFileUpload.mount)
             MultiFileUpload.ClickUpload); [| reflexivity].
    apply (MultiFileUpload.reachable_step MultiFileUpload.mount
             (MultiFileUpload.Select (Some [report; photo]))); [| reflexivity].
    apply MultiFileUpload.reachable_mount. }
  split; [exact Hs |].
  apply (uploading_iff_pending s Hs). exists 1%nat. reflexivity.
Defined.

(** X10: while the uploading flag is set no user event can occur, and
    an event of a request (progress, resolution, rejection) keeps the
    entries of the collection: the same identifiers and files, in the same
    order.  So nothing is added to or removed from the collection during an
    upload. *)
Theorem collection_kept_during_upload
  (s s' : MultiFileUpload.State) (e : MultiFileUpload.Event) :
  MultiFileUpload.step s e = Some s' ->
  MultiFileUpload.uploading s = true \/ MultiFileUpload.is_user e = false ->
  MultiFileUpload.is_user e = false
  /\ map MultiFileUpload.id (MultiFileUpload.files s') = map MultiFileUpload.id (MultiFileUpload.files s)
  /\ map MultiFileUpload.file (MultiFileUpload.files s')
     = map MultiFileUpload.file (MultiFileUpload.files s).
Proof.
  intros Hstep Hcase.
  apply StepFacts.step_handle in Hstep. destruct Hstep as [En ->].
  assert (MultiFileUpload.is_user e = false) as Hnet.
  { destruct Hcase as [Hu | Hn]; [| exact Hn].
    destruct e; try reflexivity; cbn in En;
      unfold MultiFileUpload.FileInput_disabled, MultiFileUpload.ActionButtons_disabled,
             MultiFileUpload.removeButton_rendered in En;
      rewrite Hu in En; rewrite ?orb_true_r in En; discriminate. }
  split; [exact Hnet |].
  rewrite StepFacts.files_after.
  destruct e as [fs | | | i | n loaded total | n | n]; try discriminate.
  - destruct (nth_error (MultiFileUpload.requests s) n); [| split; reflexivity].
    split; apply CollectionFacts.progressUpdate_ids.
  - destruct (nth_error (MultiFileUpload.requests s) n); [| split; reflexivity].
    split; apply CollectionFacts.uploadedUpdate_ids.
  - split; reflexivity.
Qed.

Lemma collection_kept_during_upload_witness :
  let s := MultiFileUpload.handleUpload
             (MultiFileUpload.handleFileSelect (Some [report; photo]) MultiFileUpload.mount) in
  map MultiFileUpload.id (MultiFileUpload.files (MultiFileUpload.resolved 0 s))
  = ["report.pdf"; "photo.png"].
Proof.
  intros s.
  destruct (collection_kept_during_upload s (MultiFileUpload.resolved 0 s)
              (MultiFileUpload.Resolve 0)) as [_ [H _]].
  - reflexivity.
  - left. reflexivity.
  - rewrite H. reflexivity.
Defined.

(** X11: a request that rejects leaves the collection exactly as it
    was; the failure goes to the console only, and the request cannot
    settle a second time. *)
Theorem rejected_leaves_collection (n : nat) (s : MultiFileUpload.State) :
  MultiFileUpload.pending n s = true ->
  MultiFileUpload.files (MultiFileUpload.rejected n s) = MultiFileUpload.files s
  /\ MultiFileUpload.console (MultiFileUpload.rejected n s)
     = (MultiFileUpload.console s ++ [n])%list
  /\ MultiFileUpload.pending n (MultiFileUpload.rejected n s) = false
  /\ MultiFileUpload.step (MultiFileUpload.rejected n s) (MultiFileUpload.Resolve n) = None.
Proof.
  intros Hn. destruct (JoinFacts.pending_nth n s Hn) as [r [Hr _]].
  assert (MultiFileUpload.pending n (MultiFileUpload.rejected n s) = false) as Hp.
  { unfold MultiFileUpload.pending.
    rewrite (JoinFacts.rejected_requests n s r Hr).
    rewrite (JoinFacts.settle_at_nth_same _ _ n r Hr). reflexivity. }
  split; [exact (StepFacts.files_after (MultiFileUpload.Reject n) s) |].
  split.
  { unfold MultiFileUpload.rejected. rewrite Hr.
    rewrite (proj2 (proj2 (StepFacts.join_frame _ _))). reflexivity. }
  split; [exact Hp |].
  unfold MultiFileUpload.step. cbn [MultiFileUpload.enabled]. rewrite Hp. reflexivity.
Qed.

Lemma rejected_leaves_collection_witness :
  let s := MultiFileUpload.handleUpload
             (MultiFileUpload.handleFileSelect (Some [report; photo]) MultiFileUpload.mount) in
  MultiFileUpload.files (MultiFileUpload.rejected 1 s) = MultiFileUpload.files s
  /\ MultiFileUpload.console (MultiFileUpload.rejected 1 s) = [1%nat].
Proof.
  intros s.
  destruct (rejected_leaves_collection 1 s eq_refl) as [H1 [H2 _]].
  split; [exact H1 | exact H2].
Defined.

(** X12: a request that resolves marks every entry carrying its
    identifier as uploaded, which the row shows as "Completed"; it changes
    no progress value (the progress is not set to 100) and leaves the
    entries with another identifier as they were. *)
Theorem resolved_marks_completed
  (n : nat) (r : MultiFileUpload.Request) (s : MultiFileUpload.State) :
  nth_error (MultiFileUpload.requests s) n = Some r ->
  map MultiFileUpload.progress (MultiFileUpload.files (MultiFileUpload.resolved n s))
  = map MultiFileUpload.progress (MultiFileUpload.files s)
  /\ (forall f, In f (MultiFileUpload.files (MultiFileUpload.resolved n s)) ->
        MultiFileUpload.id f = MultiFileUpload.target r ->
        MultiFileUpload.uploaded f = true
        /\ MultiFileUpload.FileItem_text f = "Completed")
  /\ (forall m f, nth_error (MultiFileUpload.files s) m = Some f ->
        MultiFileUpload.id f <> MultiFileUpload.target r ->
        nth_error (MultiFileUpload.files (MultiFileUpload.resolved n s)) m = Some f).
Proof.
  intros Hr.
  pose proof (StepFacts.files_after (MultiFileUpload.Resolve n) s) as Hf.
  cbn [MultiFileUpload.handle] in Hf. rewrite Hr in Hf. rewrite Hf.
  split; [apply CollectionFacts.uploadedUpdate_ids |].
  split.
  - intros f Hin Hid. unfold MultiFileUpload.uploadedUpdate in Hin.
    apply in_map_iff in Hin. destruct Hin as [g [Hg _]].
    destruct (String.eqb (MultiFileUpload.id g) (MultiFileUpload.target r)) eqn:E.
    + subst f. split; reflexivity.
    + subst f. apply String.eqb_neq in E. contradiction.
  - intros m f Hm Hid. unfold MultiFileUpload.uploadedUpdate.
    rewrite nth_error_map, Hm. cbn.
    apply String.eqb_neq in Hid. rewrite Hid. reflexivity.
Qed.

Lemma resolved_marks_completed_witness :
  let s := MultiFileUpload.handle (MultiFileUpload.Progress 0 512 (Some 1536))
             (MultiFileUpload.handleUpload
                (MultiFileUpload.handleFileSelect (Some [report; photo]) MultiFileUpload.mount)) in
  map MultiFileUpload.progress (MultiFileUpload.files (MultiFileUpload.resolved 0 s)) = [33; 0]
  /\ map MultiFileUpload.FileItem_text (MultiFileUpload.files (MultiFileUpload.resolved 0 s))
     = ["Completed"; "0%"].
Proof.
  intros s.
  destruct (resolved_marks_completed 0 (MultiFileUpload.post 0 (MultiFileUpload.newEntry report)) s
              eq_refl) as [H _].
  split; [rewrite H; reflexivity | reflexivity].
Defined.

(** X13: started in a reachable state with entries and no upload
    running, handleUpload sets the flag, keeps the collection and leaves
    exactly one pending request per entry, in the order of the collection,
    each carrying its entry's file and identifier. *)
Theorem handleUpload_one_request_per_entry (s : MultiFileUpload.State) :
  MultiFileUpload.reachable s ->
  MultiFileUpload.files s <> [] ->
  MultiFileUpload.uploading s = false ->
  MultiFileUpload.uploading (MultiFileUpload.handleUpload s) = true
  /\ MultiFileUpload.files (MultiFileUpload.handleUpload s) = MultiFileUpload.files s
  /\ MultiView.pendingRequests (MultiFileUpload.handleUpload s)
     = map (MultiFileUpload.post (MultiFileUpload.batches s)) (MultiFileUpload.files s)
  /\ map MultiFileUpload.payload (MultiView.pendingRequests (MultiFileUpload.handleUpload s))
     = map MultiFileUpload.file (MultiFileUpload.files s)
  /\ map MultiFileUpload.target (MultiView.pendingRequests (MultiFileUpload.handleUpload s))
     = map MultiFileUpload.id (MultiFileUpload.files s).
Proof.
  intros Hs Hne Hup.
  destruct (JoinFacts.reachable_invariant s Hs) as [_ Hp].
  assert (MultiView.pendingRequests (MultiFileUpload.handleUpload s)
          = map (MultiFileUpload.post (MultiFileUpload.batches s)) (MultiFileUpload.files s)) as Hpend.
  { unfold MultiView.pendingRequests.
    pose proof (StepFacts.requests_after MultiFileUpload.ClickUpload s) as Hr.
    cbn [MultiFileUpload.handle] in Hr. rewrite Hr, Hup.
    destruct (MultiFileUpload.files s) as [| f l] eqn:Ef; [contradiction |].
    cbn [List.length Nat.eqb orb]. rewrite filter_app.
    assert (filter (fun r => negb (MultiFileUpload.settled r)) (MultiFileUpload.requests s) = []) as ->.
    { assert (forall rs, (forall r, In r rs -> MultiFileUpload.settled r = true) ->
                filter (fun r => negb (MultiFileUpload.settled r)) rs = []) as Hnil.
      { induction rs as [| a rs IH]; intros H; cbn; [reflexivity |].
        rewrite (H a (or_introl eq_refl)). cbn. apply IH.
        intros r Hr'. apply H. right. exact Hr'. }
      apply Hnil. intros r Hin.
      destruct (MultiFileUpload.settled r) eqn:E; [reflexivity |].
      destruct (Hp r Hin E) as [Hu _]. congruence. }
    cbn [app]. apply MultiFacts.filter_id.
    intros r Hin. apply in_map_iff in Hin. destruct Hin as [g [<- _]]. reflexivity. }
  split.
  { pose proof (StepFacts.uploading_after MultiFileUpload.ClickUpload s) as Hu.
    cbn [MultiFileUpload.handle] in Hu. rewrite Hu, Hup.
    destruct (MultiFileUpload.files s); [contradiction | reflexivity]. }
  split; [exact (StepFacts.files_after MultiFileUpload.ClickUpload s) |].
  split; [exact Hpend |].
  rewrite Hpend, !map_map. split; reflexivity.
Qed.

Lemma handleUpload_one_request_per_entry_witness :
  let s := MultiFileUpload.handle (MultiFileUpload.Select (Some [report; photo]))
             MultiFileUpload.mount in
  MultiFileUpload.reachable s
  /\ map MultiFileUpload.target (MultiView.pendingRequests (MultiFileUpload.handleUpload s))
     = ["report.pdf"; "photo.png"].
Proof.
  intros s.
  assert (MultiFileUpload.reachable s) as Hs.
  { apply (MultiFileUpload.reachable_step MultiFileUpload.mount
             (MultiFileUpload.Select (Some [report; photo]))); [| reflexivity].
    apply MultiFileUpload.reachable_mount. }
  split; [exact Hs |].
  destruct (handleUpload_one_request_per_entry s Hs) as [_ [_ [_ [_ H]]]].
  - discriminate.
  - reflexivity.
  - rewrite H. reflexivity.
Defined.

(** ** MultiFileUpload: invariants of the reachable states *)

Module InvariantFacts.
Import MultiFileUpload.

Lemma inputValue_after (e : Event) (s : State) :
  inputValue (handle e s) =
  match e with
  | Select (Some (_ :: _)) => ""
  | _ => inputValue s
  end.
Proof.
  destruct e as [fs | | | i | n loaded total | n | n]; cbn [handle].
  - destruct fs as [[| f fs] |]; reflexivity.
  - unfold handleUpload.
    destruct ((List.length (files s) =? 0)%nat || uploading s); reflexivity.
  - reflexivity.
  - reflexivity.
  - destruct (nth_error (requests s) n); reflexivity.
  - unfold resolved. destruct (nth_error (requests s) n); [| reflexivity].
    rewrite (proj1 (proj2 (StepFacts.join_frame _ _))). reflexivity.
  - unfold rejected. destruct (nth_error (requests s) n); [| reflexivity].
    rewrite (proj1 (proj2 (StepFacts.join_frame _ _))). reflexivity.
Qed.

Lemma named_update (g : FileWithProgress -> FileWithProgress) (l : list FileWithProgress) :
  (forall f, id (g f) = id f /\ file (g f) = file f) ->
  (forall f, In f l -> id f = name (file f)) ->
  forall f, In f (map g l) -> id f = name (file f).
Proof.
  intros Hg Hl f Hin. apply in_map_iff in Hin. destruct Hin as [f0 [<- H0]].
  destruct (Hg f0) as [-> ->]. apply Hl, H0.
Qed.

Lemma named_files_step (s : State) (e : Event) :
  (forall f, In f (files s) -> id f = name (file f)) ->
  forall f, In f (files (handle e s)) -> id f = name (file f).
Proof.
  intros Hl. rewrite StepFacts.files_after.
  destruct e as [fs | | | i | n loaded total | n | n].
  - intros f Hin. apply in_app_or in Hin. destruct Hin as [Hin | Hin]; [apply Hl, Hin |].
    apply in_map_iff in Hin. destruct Hin as [f0 [<- _]]. reflexivity.
  - exact Hl.
  - intros f [].
  - intros f Hin. apply filter_In in Hin. apply Hl, Hin.
  - destruct (nth_error (requests s) n); [| exact Hl].
    apply named_update; [| exact Hl].
    intros f. destruct (String.eqb (id f) (target r)); split; reflexivity.
  - destruct (nth_error (requests s) n); [| exact Hl].
    apply named_update; [| exact Hl].
    intros f. destruct (String.eqb (id f) (target r)); split; reflexivity.
  - exact Hl.
Qed.

Lemma named_requests_settle (n : nat) (o : Settlement) (rs : list Request) :
  (forall r, In r rs -> target r = name (payload r)) ->
  forall r, In r (settle_at n o rs) -> target r = name (payload r).
Proof.
  intros Hrs r Hin. apply JoinFacts.settle_at_In in Hin.
  destruct Hin as [Hin | [r0 [H0 ->]]]; [apply Hrs, Hin |].
  cbn. apply Hrs. eapply nth_error_In. exact H0.
Qed.

Lemma named_requests_step (s : State) (e : Event) :
  (forall f, In f (files s) -> id f = name (file f)) ->
  (forall r, In r (requests s) -> target r = name (payload r)) ->
  forall r, In r (requests (handle e s)) -> target r = name (payload r).
Proof.
  intros Hl Hrs. rewrite StepFacts.requests_after.
  destruct e as [fs | | | i | n loaded total | n | n]; try exact Hrs.
  - destruct ((List.length (files s) =? 0)%nat || uploading s); [exact Hrs |].
    intros r Hin. apply in_app_or in Hin. destruct Hin as [Hin | Hin]; [apply Hrs, Hin |].
    apply in_map_iff in Hin. destruct Hin as [f [<- Hf]]. cbn. apply Hl, Hf.
  - apply named_requests_settle. exact Hrs.
  - apply named_requests_settle. exact Hrs.
Qed.

End InvariantFacts.

(** X14: in every state the component reaches the value of the file
    input is empty, so that picking the same file again is a change. *)
Theorem input_value_cleared (s : MultiFileUpload.State) :
  MultiFileUpload.reachable s -> MultiFileUpload.inputValue s = "".
Proof.
  induction 1 as [| s e s' _ IH Hstep]; [reflexivity |].
  apply StepFacts.step_handle in Hstep. destruct Hstep as [_ ->].
  rewrite InvariantFacts.inputValue_after.
  destruct e as [[[| f fs] |] | | | | | |]; (exact IH || reflexivity).
Qed.

Lemma input_value_cleared_witness :
  MultiFileUpload.inputValue
    (MultiFileUpload.handle (MultiFileUpload.Select (Some [report; photo]))
       MultiFileUpload.mount) = "".
Proof.
  apply input_value_cleared.
  apply (MultiFileUpload.reachable_step MultiFileUpload.mount
           (MultiFileUpload.Select (Some [report; photo]))); [| reflexivity].
  apply MultiFileUpload.reachable_mount.
Defined.

(** X15: in every state the component reaches, the identifier of an
    entry is the name of its file, and the identifier a request routes its
    callbacks by is the name of the file it carries. *)
Theorem identifier_is_file_name (s : MultiFileUpload.State) :
  MultiFileUpload.reachable s ->
  (forall f, In f (MultiFileUpload.files s) ->
             MultiFileUpload.id f = name (MultiFileUpload.file f))
  /\ (forall r, In r (MultiFileUpload.requests s) ->
                MultiFileUpload.target r = name (MultiFileUpload.payload r)).
Proof.
  induction 1 as [| s e s' _ [IHf IHr] Hstep].
  - split; intros x [].
  - apply StepFacts.step_handle in Hstep. destruct Hstep as [_ ->]. split.
    + apply InvariantFacts.named_files_step. exact IHf.
    + apply InvariantFacts.named_requests_step; assumption.
Qed.

Lemma identifier_is_file_name_witness :
  let s := MultiFileUpload.handle MultiFileUpload.ClickUpload
             (MultiFileUpload.handle (MultiFileUpload.Select (Some [report; photo]))
                MultiFileUpload.mount) in
  MultiFileUpload.reachable s
  /\ MultiFileUpload.id (MultiFileUpload.newEntry photo)
     = name (MultiFileUpload.file (MultiFileUpload.newEntry photo)).
Proof.
  intros s.
  assert (MultiFileUpload.reachable s) as Hs.
  { apply (MultiFileUpload.reachable_step
             (MultiFileUpload.handle (MultiFileUpload.Select (Some [report; photo]))
                MultiFileUpload.mount)
             MultiFileUpload.ClickUpload); [| reflexivity].
    apply (MultiFileUpload.reachable_step MultiFileUpload.mount
             (MultiFileUpload.Select (Some [report; photo]))); [| reflexivity].
    apply MultiFileUpload.reachable_mount. }
  split; [exact Hs |].
  apply (proj1 (identifier_is_file_name s Hs)).
  right. left. reflexivity.
Defined.

(** ** MultiFileUpload: the rows *)

Module ViewFacts.
Import MultiView.

Lemma prefix_head (a : ascii) (p m : string) :
  String.prefix (String a p) m = true -> exists m', m = String a m'.
Proof.
  destruct m as [| b m']; cbn; [discriminate |].
  destruct (Ascii.ascii_dec a b) as [<- | _]; [| discriminate].
  intros _. exists m'. reflexivity.
Qed.

Lemma append_assoc (a b c : string) : (a ++ b) ++ c = a ++ (b ++ c).
Proof.
  induction a as [| x a IH]; cbn; [reflexivity |].
  rewrite IH. reflexivity.
Qed.

(** A text that ends in a percent sign is not "Completed". *)
Lemma percent_text_not_completed (t : string) : t ++ "%" <> "Completed".
Proof.
  intros H.
  do 9 (destruct t as [| ? t]; cbn in H; [discriminate H |];
        apply (f_equal (fun s => match s with
                                 | String _ rest => rest
                                 | EmptyString => EmptyString
                                 end)) in H;
        cbn in H).
  destruct t; discriminate H.
Qed.

Lemma FileItem_text_completed (f : MultiFileUpload.FileWithProgress) :
  MultiFileUpload.FileItem_text f = "Completed" <-> MultiFileUpload.uploaded f = true.
Proof.
  unfold MultiFileUpload.FileItem_text.
  destruct (MultiFileUpload.uploaded f); split; intros H; try reflexivity.
  - exfalso. exact (percent_text_not_completed _ H).
  - discriminate.
Qed.

End ViewFacts.

(** X16: the icon depends on the declared type alone and the five
    cases exclude one another: the image, video and audio icons are shown
    exactly for types that begin with "image/", "video/" and "audio/", the
    text icon exactly for "application/pdf", and the generic icon for
    everything else, the empty type included. *)
Theorem getFileIcon_cases (mimeType : string) :
  (MultiView.getFileIcon mimeType = MultiView.FileImage
   <-> MultiView.startsWith mimeType "image/" = true)
  /\ (MultiView.getFileIcon mimeType = MultiView.FileVideo
      <-> MultiView.startsWith mimeType "video/" = true)
  /\ (MultiView.getFileIcon mimeType = MultiView.FileAudio
      <-> MultiView.startsWith mimeType "audio/" = true)
  /\ (MultiView.getFileIcon mimeType = MultiView.FileText
      <-> mimeType = "application/pdf")
  /\ (MultiView.getFileIcon mimeType = MultiView.FileIcon
      <-> MultiView.startsWith mimeType "image/" = false
          /\ MultiView.startsWith mimeType "video/" = false
          /\ MultiView.startsWith mimeType "audio/" = false
          /\ mimeType <> "application/pdf").
Proof.
  unfold MultiView.getFileIcon, MultiView.startsWith.
  assert (forall a p, String.prefix (String a p) mimeType = true ->
                      exists m', mimeType = String a m') as Hhead
    by (intros a p; apply ViewFacts.prefix_head).
  destruct (String.eqb_spec mimeType "application/pdf") as [Hpdf | Hpdf].
  - subst mimeType. cbn.
    repeat split; intros;
      repeat match goal with
             | H : _ /\ _ |- _ => destruct H
             end;
      congruence.
  - destruct (String.prefix "image/" mimeType) eqn:E1;
      [destruct (Hhead _ _ E1) as [m' ->]; cbn |
       destruct (String.prefix "video/" mimeType) eqn:E2;
       [destruct (Hhead _ _ E2) as [m' ->]; cbn |
        destruct (String.prefix "audio/" mimeType) eqn:E3]];
      repeat split; intros;
      repeat match goal with
             | H : _ /\ _ |- _ => destruct H
             end;
      congruence.
Qed.

(** X17: the list is rendered exactly when the collection is not empty,
    with one row per entry in the order of the collection.  A row shows
    "Completed" exactly when its entry is uploaded, has a removal button
    exactly when no upload is running, and shows the placeholder for an
    empty type. *)
Theorem FileList_rows (files : list MultiFileUpload.FileWithProgress) (uploading : bool) :
  (MultiView.FileList files uploading = None <-> files = [])
  /\ (forall rows, MultiView.FileList files uploading = Some rows ->
        List.length rows = List.length files
        /\ forall n f, nth_error files n = Some f ->
             exists row,
               nth_error rows n = Some row
               /\ MultiView.label row = name (MultiFileUpload.file f)
               /\ (MultiView.statusText row = "Completed" <-> MultiFileUpload.uploaded f = true)
               /\ MultiView.removeButton row = negb uploading
               /\ (type (MultiFileUpload.file f) = "" -> MultiView.typeText row = "Unknown type")
               /\ (type (MultiFileUpload.file f) <> "" ->
                   MultiView.typeText row = type (MultiFileUpload.file f))).
Proof.
  unfold MultiView.FileList. split.
  - destruct files; cbn; split; intros H; try reflexivity; discriminate H.
  - intros rows H.
    destruct (List.length files =? 0)%nat; [discriminate H |].
    inversion H as [Hrows]. clear H. split; [apply length_map |].
    intros n f Hn. exists (MultiView.FileItem f uploading).
    split; [rewrite nth_error_map, Hn; reflexivity |].
    split; [reflexivity |].
    split; [apply ViewFacts.FileItem_text_completed |].
    split; [reflexivity |].
    cbn. destruct (String.eqb_spec (type (MultiFileUpload.file f)) "") as [E | E].
    + split; [reflexivity | contradiction].
    + split; [contradiction | reflexivity].
Qed.

Lemma FileList_rows_witness :
  exists rows,
    MultiView.FileList [MultiFileUpload.newEntry report; MultiFileUpload.newEntry photo] true
    = Some rows
    /\ List.length rows = 2%nat.
Proof.
  eexists. split; [reflexivity |].
  apply (proj2 (FileList_rows
                  [MultiFileUpload.newEntry report; MultiFileUpload.newEntry photo] true)).
  reflexivity.
Defined.

(** ** FileUploader: further properties *)

(** X18: in every state the component reaches at most one request is
    in flight, and one is in flight exactly when the status is uploading.
    The upload button is rendered exactly when a file is selected and no
    request is in flight, and a request in flight can settle either way,
    which ends the upload with the matching status. *)
Theorem one_request_at_a_time (s : FileUploader.State) :
  FileUploader.reachable s ->
  (FileUploader.inflight s <= 1)%nat
  /\ (FileUploader.inflight s = 1%nat <-> FileUploader.status s = FileUploader.uploading)
  /\ (FileUploader.uploadButton_rendered s = true
      <-> FileUploader.file s <> None /\ FileUploader.inflight s = 0%nat)
  /\ (FileUploader.status s = FileUploader.uploading ->
      FileUploader.step s FileUploader.Resolve
      = Some (FileUploader.mkState (FileUploader.file s) FileUploader.success 0)
      /\ FileUploader.step s FileUploader.Reject
         = Some (FileUploader.mkState (FileUploader.file s) FileUploader.error 0)).
Proof.
  intros Hs. pose proof (UploaderFacts.reachable_status_invariant s Hs) as Hinv.
  unfold FileUploader.invariant in Hinv.
  unfold FileUploader.uploadButton_rendered, FileUploader.step.
  cbn [FileUploader.enabled FileUploader.handle].
  unfold FileUploader.resolved, FileUploader.rejected, FileUploader.setStatus.
  destruct s as [f st n]. cbn in *.
  destruct Hinv as [[-> Hu] | [-> ->]].
  - split; [lia |].
    split; [split; intros H; [discriminate H | subst st; discriminate Hu] |].
    split.
    + rewrite Hu. destruct f; cbn; split; intros H; try discriminate H.
      * split; [discriminate | reflexivity].
      * reflexivity.
      * destruct H as [H _]. contradiction.
    + intros ->. discriminate Hu.
  - split; [lia |].
    split; [split; reflexivity |].
    split.
    + destruct f; cbn; split; intros H; try discriminate H;
        destruct H as [_ H]; discriminate H.
    + intros _. split; reflexivity.
Qed.

Lemma one_request_at_a_time_witness :
  let s := FileUploader.handle FileUploader.ClickUpload
             (FileUploader.handle (FileUploader.FileChange (Some [photo]))
                FileUploader.mount) in
  FileUploader.reachable s
  /\ FileUploader.inflight s = 1%nat
  /\ FileUploader.step s FileUploader.ClickUpload = None.
Proof.
  intros s.
  assert (FileUploader.reachable s) as Hs.
  { apply (FileUploader.reachable_step
             (FileUploader.handle (FileUploader.FileChange (Some [photo])) FileUploader.mount)
             FileUploader.ClickUpload); [| reflexivity].
    apply (FileUploader.reachable_step FileUploader.mount
             (FileUploader.FileChange (Some [photo]))); [| reflexivity].
    apply FileUploader.reachable_mount. }
  split; [exact Hs |].
  destruct (one_request_at_a_time s Hs) as [_ [H _]].
  split; [apply H; reflexivity | reflexivity].
Defined.

(** X19: along every run of the single uploader the selected file is
    the first file of the latest change event that carried a list (none
    when that list was empty), whatever uploads and settlements lie in
    between; and every click on the upload button issues exactly one
    request: the requests in flight at the end and the settlements of the
    run add up to the requests in flight at the start and the clicks. *)
Theorem run_selection_and_requests (es : list FileUploader.Event) :
  forall s s' : FileUploader.State,
    UploaderTrace.run s es = Some s' ->
    FileUploader.file s' = UploaderTrace.selected (FileUploader.file s) es
    /\ (FileUploader.inflight s' + UploaderTrace.settlements es
        = FileUploader.inflight s + UploaderTrace.clicks es)%nat.
Proof.
  induction es as [| e es IH]; intros s s' Hrun; cbn [UploaderTrace.run] in Hrun.
  - inversion Hrun. subst s'. cbn. split; [reflexivity | lia].
  - unfold FileUploader.step in Hrun.
    destruct (FileUploader.enabled s e) eqn:En; [| discriminate Hrun].
    destruct (IH _ _ Hrun) as [Hfile Hcount]. clear IH Hrun.
    rewrite Hfile. clear Hfile.
    destruct e as [fs | | |];
      cbn [FileUploader.handle FileUploader.enabled UploaderTrace.selected
           UploaderTrace.clicks UploaderTrace.settlements] in *.
    + destruct fs as [fs |]; cbn in *; split; (reflexivity || lia).
    + unfold FileUploader.uploadButton_rendered in En.
      unfold FileUploader.handleFileUpload in *.
      destruct (FileUploader.file s) eqn:Ef; [| discriminate En].
      cbn in *. rewrite ?Ef. split; [reflexivity | lia].
    + apply Nat.ltb_lt in En. unfold FileUploader.resolved in *. cbn in *.
      split; [reflexivity | lia].
    + apply Nat.ltb_lt in En. unfold FileUploader.rejected in *. cbn in *.
      split; [reflexivity | lia].
Qed.

Lemma run_selection_and_requests_witness :
  exists s',
    UploaderTrace.run FileUploader.mount
      [FileUploader.FileChange (Some [photo]); FileUploader.ClickUpload;
       FileUploader.FileChange (Some [report; photo]); FileUploader.Reject;
       FileUploader.ClickUpload] = Some s'
    /\ FileUploader.file s' = Some report
    /\ FileUploader.inflight s' = 1%nat.
Proof.
  eexists. split; [reflexivity |].
  destruct (run_selection_and_requests
              [FileUploader.FileChange (Some [photo]); FileUploader.ClickUpload;
               FileUploader.FileChange (Some [report; photo]); FileUploader.Reject;
               FileUploader.ClickUpload]
              FileUploader.mount _ eq_refl) as [H1 H2].
  split; [exact H1 |].
  apply (Nat.add_cancel_r _ _ 1%nat). exact H2.
Defined.

(** X20: the size line of the single uploader shows the size in
    kilobytes with exactly two decimal digits, the nearest number of
    hundredths to size / 1024 (a tie going up). *)
Theorem sizeLine_two_decimals (f : File) :
  0 <= size f ->
  exists h d1 d2,
    UploaderView.sizeLine f
    = "Size: " ++ Js.toString (h / 100) ++ "." ++ Js.toString d1 ++ Js.toString d2 ++ " KB"
    /\ 0 <= h
    /\ 0 <= d1 < 10 /\ 0 <= d2 < 10
    /\ h = 100 * (h / 100) + 10 * d1 + d2
    /\ - 512 <= 100 * size f - 1024 * h < 512.
Proof.
  intros Hsize.
  exists (UploaderView.sizeHundredths (size f)),
         (UploaderView.sizeHundredths (size f) / 10 mod 10),
         (UploaderView.sizeHundredths (size f) mod 10).
  split.
  { unfold UploaderView.sizeLine, UploaderView.toFixed2_text.
    rewrite !ViewFacts.append_assoc. reflexivity. }
  pose proof (round_div_nearest (100 * size f) 1024 ltac:(lia)) as Hr.
  fold (UploaderView.sizeHundredths (size f)) in Hr.
  assert (0 <= UploaderView.sizeHundredths (size f)) as Hh
    by (unfold UploaderView.sizeHundredths, Js.round_div; apply Z.div_pos; lia).
  generalize dependent (UploaderView.sizeHundredths (size f)). intros h Hr Hh.
  split; [exact Hh |].
  split; [apply Z.mod_pos_bound; lia |].
  split; [apply Z.mod_pos_bound; lia |].
  split; [| lia].
  pose proof (Z.div_mod h 10 ltac:(lia)) as H1.
  pose proof (Z.div_mod (h / 10) 10 ltac:(lia)) as H2.
  rewrite Z.div_div in H2 by lia. change (10 * 10) with 100 in H2. lia.
Qed.

Lemma sizeLine_two_decimals_witness :
  UploaderView.sizeLine (mkFile "archive.zip" 204800 "application/zip") = "Size: 200.00 KB"
  /\ exists h d1 d2,
       UploaderView.sizeLine (mkFile "archive.zip" 204800 "application/zip")
       = "Size: " ++ Js.toString (h / 100) ++ "." ++ Js.toString d1 ++ Js.toString d2 ++ " KB"
       /\ 0 <= h
       /\ 0 <= d1 < 10 /\ 0 <= d2 < 10
       /\ h = 100 * (h / 100) + 10 * d1 + d2
       /\ - 512 <= 100 * size (mkFile "archive.zip" 204800 "application/zip") - 1024 * h < 512.
Proof.
  split; [vm_compute; reflexivity |].
  apply (sizeLine_two_decimals (mkFile "archive.zip" 204800 "application/zip")).
  discriminate.
Defined.

(** X21: in the variant whose button has no click handler no upload
    ever starts: in every state it reaches the status is idle and no
    request is in flight, and a click on the rendered button changes
    nothing. *)
Theorem draft_stays_idle (s : FileUploader.State) :
  FileUploaderDraft.reachable s ->
  FileUploader.status s = FileUploader.idle
  /\ FileUploader.inflight s = 0%nat
  /\ FileUploaderDraft.step s FileUploader.Resolve = None
  /\ FileUploaderDraft.step s FileUploader.Reject = None
  /\ (FileUploader.file s <> None ->
      FileUploaderDraft.step s FileUploader.ClickUpload = Some s).
Proof.
  intros Hs.
  assert (FileUploader.status s = FileUploader.idle /\ FileUploader.inflight s = 0%nat)
    as [Hst Hin].
  { induction Hs as [| s e s' _ [IH1 IH2] Hstep]; [split; reflexivity |].
    unfold FileUploaderDraft.step in Hstep.
    destruct (FileUploader.enabled s e) eqn:En; [| discriminate].
    inversion Hstep as [E]. clear Hstep E.
    destruct e as [fs | | |]; cbn in *.
    - destruct fs; split; assumption.
    - split; assumption.
    - rewrite IH2 in En. discriminate.
    - rewrite IH2 in En. discriminate. }
  split; [exact Hst |]. split; [exact Hin |].
  unfold FileUploaderDraft.step. cbn [FileUploader.enabled FileUploaderDraft.handle].
  rewrite Hin. split; [reflexivity |]. split; [reflexivity |].
  intros Hf. unfold FileUploader.uploadButton_rendered. rewrite Hst.
  destruct (FileUploader.file s); [reflexivity | contradiction].
Qed.

Lemma draft_stays_idle_witness :
  let s := FileUploaderDraft.handle FileUploader.ClickUpload
             (FileUploaderDraft.handle (FileUploader.FileChange (Some [photo]))
                FileUploader.mount) in
  FileUploaderDraft.reachable s
  /\ FileUploader.status s = FileUploader.idle
  /\ FileUploader.inflight s = 0%nat.
Proof.
  intros s.
  assert (FileUploaderDraft.reachable s) as Hs.
  { apply (FileUploaderDraft.reachable_step
             (FileUploaderDraft.handle (FileUploader.FileChange (Some [photo]))
                FileUploader.mount)
             FileUploader.ClickUpload); [| reflexivity].
    apply (FileUploaderDraft.reachable_step FileUploader.mount
             (FileUploader.FileChange (Some [photo]))); [| reflexivity].
    apply FileUploaderDraft.reachable_mount. }
  split; [exact Hs |].
  destruct (draft_stays_idle s Hs) as [H1 [H2 _]].
  split; assumption.
Defined.

(** ** MultiFileUpload: Clear All *)

(** X22: Clear All can be clicked only when no request is pending.  It
    empties the collection, after which nothing is listed, the two action
    buttons are disabled, and no progress, resolution or rejection can
    arrive for the entries that were cleared. *)
Theorem clear_all_when_idle (s s' : MultiFileUpload.State) :
  MultiFileUpload.reachable s ->
  MultiFileUpload.step s MultiFileUpload.ClickClear = Some s' ->
  MultiFileUpload.files s' = []
  /\ MultiView.render s' = None
  /\ MultiFileUpload.ActionButtons_disabled s' = true
  /\ MultiFileUpload.step s' MultiFileUpload.ClickUpload = None
  /\ (forall n, MultiFileUpload.pending n s' = false)
  /\ MultiFileUpload.uploading s' = false.
Proof.
  intros Hs Hstep.
  apply StepFacts.step_handle in Hstep. destruct Hstep as [En ->].
  cbn in En. unfold MultiFileUpload.ActionButtons_disabled in En.
  apply negb_true_iff, orb_false_iff in En. destruct En as [_ Hup].
  split; [reflexivity |].
  split; [reflexivity |].
  split; [reflexivity |].
  split; [reflexivity |].
  split; [| exact Hup].
  intros n.
  destruct (MultiFileUpload.pending n (MultiFileUpload.handle MultiFileUpload.ClickClear s)) eqn:E;
    [| reflexivity].
  change (MultiFileUpload.pending n s = true) in E.
  rewrite (JoinFacts.reachable_pending_uploading s n Hs E) in Hup. discriminate Hup.
Qed.

Lemma clear_all_when_idle_witness :
  let s := MultiFileUpload.handle (MultiFileUpload.Select (Some [report; photo]))
             MultiFileUpload.mount in
  MultiFileUpload.reachable s
  /\ MultiFileUpload.files (MultiFileUpload.handleClear s) = []
  /\ MultiView.render (MultiFileUpload.handleClear s) = None.
Proof.
  intros s.
  assert (MultiFileUpload.reachable s) as Hs.
  { apply (MultiFileUpload.reachable_step MultiFileUpload.mount
             (MultiFileUpload.Select (Some [report; photo]))); [| reflexivity].
    apply MultiFileUpload.reachable_mount. }
  split; [exact Hs |].
  destruct (clear_all_when_idle s (MultiFileUpload.handleClear s) Hs eq_refl) as [H1 [H2 _]].
  split; assumption.
Defined.
